(** * fdo-server-wrapper: the interception pipeline and the backend supervisor

    A shallow embedding of

    - [internal/proxy] (the dispatcher [FDOProxy]: [NewFDOProxy], [Start],
      [startBackendServer], [waitForBackend], [processRequest],
      [modifyResponse]),
    - [internal/middleware/di.go] ([DIMiddleware]),
    - [internal/middleware/to2.go] ([TO2Middleware]),
    - the types of [internal/ledger/client.go],

    followed by the properties of the specification that are settled on it.

    Go strings are byte sequences, so they are [string] (a list of [ascii]).
    Effects (logging, calls of the passport service, the clock, the operating
    system, the backend) are events: a computation sees the events so far
    and returns the events it adds. What the outside answers is given by
    oracles, so every theorem quantifies over all behaviours of the
    outside. *)

From Corelib Require PrimFloat.
From Stdlib Require Import ZArith Lia Bool Ascii String List.
From stdpp Require Import base option list strings gmap pretty.

Local Open Scope string_scope.
Local Open Scope list_scope.

(** ** Package [strings] and [fmt] *)

Module strings.

(** [strings.HasPrefix]. *)
Definition HasPrefix (s prefix : string) : bool := String.prefix prefix s.

(** [strings.HasSuffix]:
    [len(s) >= len(suffix) && s[len(s)-len(suffix):] == suffix]. *)
Definition HasSuffix (s suffix : string) : bool :=
  (String.length suffix <=? String.length s)%nat &&
  String.eqb
    (String.substring (String.length s - String.length suffix)
                      (String.length suffix) s)
    suffix.

(** [strings.Contains]: [substr] occurs in [s] at some offset. *)
Fixpoint Contains (s substr : string) : bool :=
  if HasPrefix s substr then true
  else match s with
       | EmptyString => false
       | String _ s' => Contains s' substr
       end.

(** The loop of [strings.Split] for a separator that is not empty: the
    pieces of [s] between the occurrences of [sep], found from the left and
    not overlapping; one more piece than there are occurrences, so never an
    empty slice. [skip] counts the bytes of the occurrence of [sep] that the
    scan is still inside of. *)
Fixpoint genSplit (sep : string) (skip : nat) (s : string) : list string :=
  match s with
  | EmptyString => [EmptyString]
  | String c s' =>
      match skip with
      | S skip' => genSplit sep skip' s'
      | O =>
          if HasPrefix s sep
          then EmptyString :: genSplit sep (String.length sep - 1) s'
          else match genSplit sep 0 s' with
               | [] => [String c EmptyString]
               | piece :: rest => String c piece :: rest
               end
      end
  end.

(** [strings.Split(s, sep)]. With an empty separator Go cuts [s] after each
    UTF-8 sequence; the source never does that, and the pieces are the
    single bytes here. *)
Definition Split (s sep : string) : list string :=
  match sep with
  | EmptyString => map (fun c => String c EmptyString) (list_ascii_of_string s)
  | String _ _ => genSplit sep 0 s
  end.

(** What [Split] gives for a separator of one byte, as
    [strings.Split(req.URL.Path, "/")] in the source. *)
Fixpoint SplitByte (s : string) (sep : ascii) : list string :=
  match s with
  | EmptyString => [EmptyString]
  | String c s' =>
      if Ascii.eqb c sep then EmptyString :: SplitByte s' sep
      else match SplitByte s' sep with
           | [] => [String c EmptyString]
           | piece :: rest => String c piece :: rest
           end
  end.

(** No byte of [s] is [c]. *)
Fixpoint free_of (c : ascii) (s : string) : bool :=
  match s with
  | EmptyString => true
  | String d s' => negb (Ascii.eqb d c) && free_of c s'
  end.

End strings.

Module fmt.

(** [fmt.Sprintf("%d", n)]: the decimal rendering of an integer, with a
    leading minus sign for negative numbers. *)
Definition Sprintf_d (n : Z) : string := pretty n.

End fmt.

(** ** Errors *)

(** Go's [error] values as the source builds them: [fmt.Errorf] with a
    message only, [fmt.Errorf] wrapping another error with [%w], and the
    errors that come from outside the program. *)
Inductive error : Type :=
| errorString (msg : string)
| wrapError (msg : string) (inner : error)
| externalError (code : Z) (msg : string).

(** ** Package [io]: single-read streams *)

(** A stream that yields [rd_data] and then ends, at end of file when
    [rd_err] is [None] and with that error otherwise. *)
Record Reader : Type := mkReader {
  rd_data : string;
  rd_err : option error;
}.

Module io.

(** [io.ReadAll(r)]: everything that is left in [r] and the error that
    ended the read ([nil] at end of file). The stream is used up: the
    third component is [r] after the call. *)
Definition ReadAll (r : Reader) : string * option error * Reader :=
  (rd_data r, rd_err r, mkReader EmptyString (rd_err r)).

(** [io.NopCloser(strings.NewReader(s))]. *)
Definition NopCloser_NewReader (s : string) : Reader := mkReader s None.

End io.

(** ** Package [net/http]: requests and responses *)

(** [http.Header] is [map[string][]string]. *)
Abbreviation Header := (gmap string (list string)).

(** [Header.Get(key)]: the first value stored under [key], or the empty
    string. [net/http] first puts [key] in canonical form; the one key the
    source asks for, [Message-Type], is in canonical form already. *)
Definition Header_Get (h : Header) (key : string) : string :=
  match h !! key with
  | Some (v :: _) => v
  | _ => EmptyString
  end.

Record Request : Type := mkRequest {
  Method : string;
  URL_Path : string;
  URL_RawQuery : string;
  req_Header : Header;
  req_Body : Reader;
}.

Record Response : Type := mkResponse {
  StatusCode : Z;
  resp_Header : Header;
  resp_Body : Reader;
}.

Definition set_req_Body (req : Request) (b : Reader) : Request :=
  mkRequest (Method req) (URL_Path req) (URL_RawQuery req) (req_Header req) b.

Definition StatusOK : Z := 200.
Definition StatusInternalServerError : Z := 500.
Definition StatusBadGateway : Z := 502.

(** ** Package [ledger]: the values exchanged with the passport service *)

Module ledger.

(** The shapes of [internal/ledger/client.go]. Several of them have a field
    [UUID] or [Signature]; the fields of the inner records carry the name
    of their record in front. *)
Record ProductItemRecord : Type := mkProductItemRecord {
  Record_UUID : string;
  Record_Signature : string;
  Record_Descriptor : string;
}.

Record ProductItemMetadata : Type := mkProductItemMetadata {
  Metadata_Version : string;
  Metadata_CreationTime : string;
  Metadata_BoardSN : string;
}.

Record ProductItemAgent : Type := mkProductItemAgent {
  Agent_UUID : string;
  Agent_Signature : string;
}.

(** [SchemaVersion] is a [float64]. *)
Record ProductItemPassport : Type := mkProductItemPassport {
  SchemaVersion : PrimFloat.float;
  UUID : string;
  Records : list ProductItemRecord;
  Metadata : ProductItemMetadata;
  Agent : ProductItemAgent;
  Signature : string;
}.

(** The payload of the write call. *)
Record CommissioningCreateRequest : Type := mkCommissioningCreateRequest {
  ControllerUUID : string;
  Cert : string;
  DeployedLocation : string;
  Timestamp : string;
}.

End ledger.

(** ** Package [time] *)

(** A reading of the wall clock: seconds since the epoch and the nanoseconds
    within the second. *)
Record Time : Type := mkTime {
  unixSec : Z;
  nsec : Z;
}.

(** Two's complement wrap-around of [int64] arithmetic. *)
Definition wrap64 (z : Z) : Z := (z + 2 ^ 63) mod 2 ^ 64 - 2 ^ 63.

(** [Time.UnixNano]: [unixSec*1e9 + nsec], computed in [int64]. *)
Definition UnixNano (t : Time) : Z := wrap64 (unixSec t * 1000000000 + nsec t).

(** ** Package [os/exec] *)

Inductive File : Type := os_Stdout | os_Stderr | no_File.

(** [exec.Cmd]. [cmd_Name] is the name the command was created with, which
    is [Args[0]] too. The field [Path] of Go, which [exec.Command] resolves
    from the name against [PATH] when the command is created, depends on
    the machine and is not modelled. *)
Record Cmd : Type := mkCmd {
  cmd_Name : string;
  cmd_Args : list string;
  cmd_Dir : string;
  cmd_Stdout : File;
  cmd_Stderr : File;
  cmd_Process : option Z;
}.

(** [exec.CommandContext(ctx, name, arg...)]: [Args] holds the name followed
    by the arguments; of the fields modelled nothing else is set. *)
Definition CommandContext (name : string) (arg : list string) : Cmd :=
  mkCmd name (name :: arg) EmptyString no_File no_File None.

(** The command once [Cmd.Start] has filled in [Process]. *)
Definition started (cmd : Cmd) (pid : Z) : Cmd :=
  mkCmd (cmd_Name cmd) (cmd_Args cmd) (cmd_Dir cmd) (cmd_Stdout cmd)
        (cmd_Stderr cmd) (Some pid).

(** ** The world *)

Inductive Level : Type := LevelInfo | LevelWarn | LevelError.

(** The attribute values the source hands to [slog]. *)
Inductive Value : Type :=
| VString (s : string)
| VInt (n : Z)
| VError (e : error).

(** What the program does, in the order it does it. [EvEnter] marks the
    entry into one of the handlers of the interceptors; it is not an effect,
    it makes "the handler is invoked" observable. [EvRoundTrip req] is the
    call [proxy.ServeHTTP(w, req)] of the dispatcher: [req] is the request
    the dispatcher hands to the reverse proxy. What the library then puts on
    the wire (a copy with the URL of the backend and with headers added and
    dropped, which the transport may send again after a broken connection)
    is not recorded. *)
Inductive Event : Type :=
| EvEnter (handler : string)
| EvLog (lvl : Level) (msg : string) (attrs : list (string * Value))
| EvNow (t : Time)
| EvGetProductItemPassport (productUUID : string) (failure : option error)
| EvCreateCommissioningPassport (req : ledger.CommissioningCreateRequest)
                                (failure : option error)
| EvProcessStart (cmd : Cmd) (outcome : Z + error)
| EvHttpGet (url : string) (outcome : Z + error)
| EvListen (addr : string)
| EvRoundTrip (req : Request)
| EvReply (resp : Response).

(** What the outside answers. Every oracle sees the events so far, so its
    answers may change from one call to the next. *)
Record Env : Type := mkEnv {
  (** [time.Now] *)
  clock : list Event -> Time;
  (** [Cmd.Start]: the process identifier, or why the launch failed *)
  exec_Start : list Event -> Cmd -> Z + error;
  (** how many times the [select] of [waitForBackend] takes the ticker
      before it takes the 30 s timeout *)
  ticks_before_timeout : list Event -> nat;
  (** [http.Get]: the status code of the answer, or a transport error *)
  http_Get : list Event -> string -> Z + error;
  (** binding the listening socket *)
  net_Listen : list Event -> string -> option error;
  (** the requests accepted until the listener is closed *)
  accepted : list Event -> list Request;
  (** what the reverse proxy obtains for a request handed to it: the
      response as it passes it to the [ModifyResponse] hook, or a transport
      error *)
  RoundTrip : list Event -> Request -> Response + error;
}.

(** A computation reads the oracles and the events so far, and returns a
    value and the events it adds. It cannot take an event back. *)
Definition M (A : Type) : Type := Env -> list Event -> A * list Event.

Definition ret {A} (a : A) : M A := fun _ _ => (a, []).

Definition bind {A B} (c : M A) (k : A -> M B) : M B :=
  fun E h =>
    let (a, evs1) := c E h in
    let (b, evs2) := k a E (h ++ evs1) in
    (b, evs1 ++ evs2).

Declare Scope go_scope.
Delimit Scope go_scope with go.
Notation "'let*' x ':=' c 'in' k" := (bind c (fun x => k))
  (at level 10, x pattern, c at level 100, k at level 200) : go_scope.
Notation "c ;; k" := (bind c (fun _ => k))
  (at level 100, right associativity) : go_scope.
Local Open Scope go_scope.

Definition emit (e : Event) : M unit := fun _ _ => (tt, [e]).

(** Records that [handler] was entered. *)
Definition enter (handler : string) : M unit := emit (EvEnter handler).

Module slog.
Definition Info (msg : string) (attrs : list (string * Value)) : M unit :=
  emit (EvLog LevelInfo msg attrs).
Definition Warn (msg : string) (attrs : list (string * Value)) : M unit :=
  emit (EvLog LevelWarn msg attrs).
Definition Error (msg : string) (attrs : list (string * Value)) : M unit :=
  emit (EvLog LevelError msg attrs).
End slog.

(** [time.Now()]. *)
Definition time_Now : M Time :=
  fun E h => let t := clock E h in (t, [EvNow t]).

(** ** [proxy.LedgerClient] and [proxy.Middleware] *)

(** The interface [LedgerClient]. A method answers with a value or with an
    error, never with both and never with neither; like the oracles it sees
    the events so far. The [context.Context] argument only carries
    cancellation and is left out. *)
Record LedgerClient : Type := mkLedgerClient {
  GetProductItemPassport :
    list Event -> string -> ledger.ProductItemPassport + error;
  CreateCommissioningPassport :
    list Event -> ledger.CommissioningCreateRequest -> option error;
}.

(** The error of an answer, [nil] when there is none. *)
Definition failure_of {A} (r : A + error) : option error :=
  match r with
  | inl _ => None
  | inr err => Some err
  end.

(** Calling the two methods: the answer comes from the client; the call is
    an event, recorded with the error it returned. *)
Definition call_GetProductItemPassport (c : LedgerClient) (productUUID : string)
  : M (ledger.ProductItemPassport + error) :=
  fun _ h =>
    let r := GetProductItemPassport c h productUUID in
    (r, [EvGetProductItemPassport productUUID (failure_of r)]).

Definition call_CreateCommissioningPassport (c : LedgerClient)
    (req : ledger.CommissioningCreateRequest) : M (option error) :=
  fun _ h =>
    let r := CreateCommissioningPassport c h req in
    (r, [EvCreateCommissioningPassport req r]).

(** The interface [Middleware]. Both methods get a pointer, so each returns
    the request (response) as it leaves it. *)
Record Middleware : Type := mkMiddleware {
  ProcessRequest : Request -> M (option error * Request);
  ProcessResponse : Response -> M (option error * Response);
}.

(** ** [internal/middleware/di.go] *)

Module DI.

Record DIMiddleware : Type := mkDIMiddleware {
  ledgerClient : option LedgerClient;
  enableProductPassport : bool;
}.

Definition NewDIMiddleware (ledgerClient : option LedgerClient)
    (enableProductPassport : bool) : DIMiddleware :=
  mkDIMiddleware ledgerClient enableProductPassport.

Definition isDIRequest (req : Request) : bool :=
  strings.Contains (URL_Path req) "/fdo/101/msg/" &&
  (strings.HasSuffix (URL_Path req) "/10" ||
   strings.HasSuffix (URL_Path req) "/12").

Definition isDIResponse (resp : Response) : bool :=
  let msgType := Header_Get (resp_Header resp) "Message-Type" in
  String.eqb msgType "11" || String.eqb msgType "13".

Definition extractProductID (body : string) : string :=
  if strings.Contains body "productId" then "example-product-id"
  else EmptyString.

Definition handleDIAppStart (m : DIMiddleware) (req : Request)
  : M (option error * Request) :=
  enter "handleDIAppStart" ;;
  match enableProductPassport m, ledgerClient m with
  | true, Some client =>
      let '(body, err, drained) := io.ReadAll (req_Body req) in
      match err with
      | Some e =>
          ret (Some (wrapError "failed to read request body" e),
               set_req_Body req drained)
      | None =>
          let req := set_req_Body req (io.NopCloser_NewReader body) in
          let productID := extractProductID body in
          if String.eqb productID EmptyString then ret (None, req)
          else
            let* r := call_GetProductItemPassport client productID in
            match r with
            | inr err =>
                slog.Warn "Failed to get product passport"
                  [("product_id", VString productID); ("error", VError err)] ;;
                ret (None, req)
            | inl passport =>
                slog.Info "Retrieved product item passport"
                  [("uuid", VString (ledger.UUID passport));
                   ("records",
                    VInt (Z.of_nat (length (ledger.Records passport))))] ;;
                ret (None, req)
            end
      end
  | _, _ => ret (None, req)
  end.

Definition handleDISetCredentials (m : DIMiddleware) (resp : Response)
  : M (option error) :=
  enter "handleDISetCredentials" ;;
  slog.Info "DI.SetCredentials completed successfully" [] ;;
  ret None.

Definition ProcessRequest (m : DIMiddleware) (req : Request)
  : M (option error * Request) :=
  if negb (isDIRequest req) then ret (None, req)
  else
    let pathParts := strings.Split (URL_Path req) "/" in
    if (length pathParts <? 5)%nat then ret (None, req)
    else
      let msgType := nth 4 pathParts EmptyString in
      if String.eqb msgType "10" then handleDIAppStart m req
      else ret (None, req).

Definition ProcessResponse (m : DIMiddleware) (resp : Response)
  : M (option error) :=
  if negb (isDIResponse resp) then ret None
  else
    let msgType := Header_Get (resp_Header resp) "Message-Type" in
    if String.eqb msgType "11" then handleDISetCredentials m resp
    else ret None.

(** A [*DIMiddleware] as a [proxy.Middleware]. [ProcessResponse] does not
    write to the response. *)
Definition as_Middleware (m : DIMiddleware) : Middleware :=
  mkMiddleware (ProcessRequest m)
    (fun resp => let* err := ProcessResponse m resp in ret (err, resp)).

End DI.

(** ** [internal/middleware/to2.go] *)

Module TO2.

Record TO2Middleware : Type := mkTO2Middleware {
  ledgerClient : option LedgerClient;
  ownerID : string;
}.

Definition NewTO2Middleware (ledgerClient : option LedgerClient)
    (ownerID : string) : TO2Middleware :=
  mkTO2Middleware ledgerClient ownerID.

Definition isTO2Request (req : Request) : bool :=
  strings.Contains (URL_Path req) "/fdo/101/msg/" &&
  (strings.HasSuffix (URL_Path req) "/60" ||
   strings.HasSuffix (URL_Path req) "/70").

Definition isTO2Response (resp : Response) : bool :=
  let msgType := Header_Get (resp_Header resp) "Message-Type" in
  String.eqb msgType "71".

Definition extractDeviceGUID (m : TO2Middleware) (resp : Response) : string :=
  "example-device-guid".

Definition handleTO2HelloDevice (m : TO2Middleware) (req : Request)
  : M (option error) :=
  enter "handleTO2HelloDevice" ;;
  slog.Info "TO2.HelloDevice request received" [] ;;
  ret None.

Definition handleTO2Done2 (m : TO2Middleware) (resp : Response)
  : M (option error) :=
  enter "handleTO2Done2" ;;
  match ledgerClient m with
  | None => ret None
  | Some client =>
      let deviceGUID := extractDeviceGUID m resp in
      if String.eqb deviceGUID EmptyString then
        slog.Warn "Could not extract device GUID from TO2.Done2 response" [] ;;
        ret None
      else
        let* now := time_Now in
        let reqBody :=
          ledger.mkCommissioningCreateRequest
            deviceGUID EmptyString EmptyString
            (fmt.Sprintf_d (UnixNano now)) in
        let* err := call_CreateCommissioningPassport client reqBody in
        match err with
        | Some err =>
            slog.Warn "Failed to create commissioning passport"
              [("controller_uuid", VString deviceGUID);
               ("error", VError err)] ;;
            ret None
        | None =>
            slog.Info "Created commissioning passport"
              [("controller_uuid",
                VString (ledger.ControllerUUID reqBody))] ;;
            ret None
        end
  end.

Definition ProcessRequest (m : TO2Middleware) (req : Request)
  : M (option error) :=
  if negb (isTO2Request req) then ret None
  else
    let pathParts := strings.Split (URL_Path req) "/" in
    if (length pathParts <? 5)%nat then ret None
    else
      let msgType := nth 4 pathParts EmptyString in
      if String.eqb msgType "60" then handleTO2HelloDevice m req
      else ret None.

Definition ProcessResponse (m : TO2Middleware) (resp : Response)
  : M (option error) :=
  if negb (isTO2Response resp) then ret None
  else
    let msgType := Header_Get (resp_Header resp) "Message-Type" in
    if String.eqb msgType "71" then handleTO2Done2 m resp
    else ret None.

(** A [*TO2Middleware] as a [proxy.Middleware]. Neither method writes to
    what it is given. *)
Definition as_Middleware (m : TO2Middleware) : Middleware :=
  mkMiddleware
    (fun req => let* err := ProcessRequest m req in ret (err, req))
    (fun resp => let* err := ProcessResponse m resp in ret (err, resp)).

End TO2.

(** ** What the source uses of [net/http], [net/url] and [net/http/httputil] *)

Definition newline : string := String (ascii_of_nat 10) EmptyString.

(** [http.Error(w, msg, code)]: a plain-text reply with that status whose
    body is the message and a newline. *)
Definition http_Error (msg : string) (code : Z) : Response :=
  mkResponse code
    (<["Content-Type" := ["text/plain; charset=utf-8"]]>
       (<["X-Content-Type-Options" := ["nosniff"]]> ∅))
    (mkReader (msg +:+ newline) None).

(** [http.Get(url)]: one call of the outside, recorded with its answer. *)
Definition http_Get_ (url : string) : M (Z + error) :=
  fun E h => let r := http_Get E h url in (r, [EvHttpGet url r]).

(** [Cmd.Start()]: one call of the outside, recorded with its answer. *)
Definition Cmd_Start (cmd : Cmd) : M (Z + error) :=
  fun E h => let r := exec_Start E h cmd in (r, [EvProcessStart cmd r]).

(** [url.Parse] of [http://localhost:<port>]: a port must be made of digits,
    so the parse fails exactly for a negative number. *)
Definition url_Parse_localhost (port : Z) : string + error :=
  if (0 <=? port)%Z then inl ("http://localhost:" +:+ fmt.Sprintf_d port)
  else inr (errorString "invalid port").

(** The reply of the default error handler of [httputil.ReverseProxy]. *)
Definition bad_gateway : Response :=
  mkResponse StatusBadGateway ∅ (mkReader EmptyString None).

Module httputil.

(** [ReverseProxy.ServeHTTP], seen from the dispatcher: the request is
    handed over, the library obtains a response or fails, a response goes
    through the [ModifyResponse] hook, and the reply is the response as the
    hook leaves it, or 502 Bad Gateway when the library or the hook fails.
    What the library does between taking the request and calling the hook
    (the outbound copy of the request, its headers, the hop-by-hop headers
    it drops from the response, a second attempt of the transport) is
    inside the oracle [RoundTrip] and is not modelled. *)
Definition ServeHTTP (ModifyResponse : Response -> M (option error * Response))
    (req : Request) : M Response :=
  let* r := (fun E h => (RoundTrip E h req, [EvRoundTrip req])) in
  match r with
  | inr _ => ret bad_gateway
  | inl resp =>
      let* (err, resp) := ModifyResponse resp in
      match err with
      | Some _ => ret bad_gateway
      | None => ret resp
      end
  end.

End httputil.

(** [http.ErrServerClosed]. *)
Definition ErrServerClosed : error := errorString "http: Server closed".

(** Serves the accepted requests one after the other: the reply of the
    handler goes to the client. *)
Fixpoint serve (handler : Request -> M Response) (reqs : list Request)
  : M unit :=
  match reqs with
  | [] => ret tt
  | r :: reqs' =>
      let* reply := handler r in
      emit (EvReply reply) ;;
      serve handler reqs'
  end.

(** [Server.ListenAndServe()]: binds the socket, serves until the listener
    is closed, and always returns an error. *)
Definition ListenAndServe (addr : string) (handler : Request -> M Response)
  : M error :=
  let* bound := (fun E h => (net_Listen E h addr, [])) in
  match bound with
  | Some err => ret err
  | None =>
      emit (EvListen addr) ;;
      let* reqs := (fun E h => (accepted E h, [])) in
      serve handler reqs ;;
      ret ErrServerClosed
  end.

(** ** [internal/proxy] *)

Module proxy.

Record FDOProxy : Type := mkFDOProxy {
  backendURL : option string;
  backendCmd : option Cmd;
  backendPort : Z;
  ledgerClient : option LedgerClient;
  middleware : list Middleware;
  (** [server.Addr]; the handler of the server is [handler] below *)
  server : option string;
}.

Definition set_backendURL (p : FDOProxy) (u : string) : FDOProxy :=
  mkFDOProxy (Some u) (backendCmd p) (backendPort p) (ledgerClient p)
             (middleware p) (server p).

Definition set_backendCmd (p : FDOProxy) (c : Cmd) : FDOProxy :=
  mkFDOProxy (backendURL p) (Some c) (backendPort p) (ledgerClient p)
             (middleware p) (server p).

Definition set_server (p : FDOProxy) (addr : string) : FDOProxy :=
  mkFDOProxy (backendURL p) (backendCmd p) (backendPort p) (ledgerClient p)
             (middleware p) (Some addr).

Definition NewFDOProxy (fdoServerPath : string) (fdoArgs : list string)
    (listenAddr : string) (ledgerClient : option LedgerClient)
    (middleware : list Middleware) : FDOProxy :=
  mkFDOProxy None None 8081 ledgerClient middleware None.

(** The command [startBackendServer] builds. *)
Definition backendCommand (p : FDOProxy) : Cmd :=
  let args :=
    ["-db"; "./fdo-backend.db";
     "-http"; "localhost:" +:+ fmt.Sprintf_d (backendPort p);
     "-debug"] in
  let cmd := CommandContext "go" (["run"; "./cmd/server"] ++ args) in
  mkCmd (cmd_Name cmd) (cmd_Args cmd) "../go-fdo" os_Stdout os_Stderr
        (cmd_Process cmd).

Definition startBackendServer (p : FDOProxy) : M (option error * FDOProxy) :=
  let cmd := backendCommand p in
  let p := set_backendCmd p cmd in
  let* r := Cmd_Start cmd in
  match r with
  | inr err => ret (Some (wrapError "failed to start FDO server" err), p)
  | inl pid =>
      let p := set_backendCmd p (started cmd pid) in
      slog.Info "Backend FDO server started"
        [("pid", VInt pid); ("port", VInt (backendPort p))] ;;
      ret (None, p)
  end.

Definition healthURL (p : FDOProxy) : string :=
  "http://localhost:" +:+ fmt.Sprintf_d (backendPort p) +:+ "/health".

(** The loop of [waitForBackend], with the number of times the ticker is
    still taken before the timeout. Every [http.Get] returns here. In the
    source [http.Get] has no timeout of its own and runs inside the arm of
    the [select], so a probe that is never answered blocks the wait, also
    past the 30 s: such a run is a run of this model cut short, in which
    [waitForBackend] and [Start] do not return. *)
Fixpoint waitLoop (p : FDOProxy) (ticks : nat) : M (option error) :=
  match ticks with
  | O => ret (Some (errorString "timeout waiting for backend server"))
  | S ticks' =>
      let* r := http_Get_ (healthURL p) in
      match r with
      | inl status =>
          if (status =? StatusOK)%Z then ret None else waitLoop p ticks'
      | inr _ => waitLoop p ticks'
      end
  end.

Definition waitForBackend (p : FDOProxy) : M (option error) :=
  let* ticks := (fun E h => (ticks_before_timeout E h, [])) in
  waitLoop p ticks.

(** The loop of [processRequest] over the rest of the chain. *)
Fixpoint processRequest_from (chain : list Middleware) (req : Request)
  : M (option error * Request) :=
  match chain with
  | [] => ret (None, req)
  | mw :: chain' =>
      let* (err, req) := ProcessRequest mw req in
      match err with
      | Some err =>
          ret (Some (wrapError "middleware request processing failed" err),
               req)
      | None => processRequest_from chain' req
      end
  end.

Definition processRequest (p : FDOProxy) (req : Request)
  : M (option error * Request) :=
  processRequest_from (middleware p) req.

(** The loop of [modifyResponse] over the rest of the chain. *)
Fixpoint modifyResponse_from (chain : list Middleware) (resp : Response)
  : M (option error * Response) :=
  match chain with
  | [] => ret (None, resp)
  | mw :: chain' =>
      let* (err, resp) := ProcessResponse mw resp in
      match err with
      | Some err =>
          slog.Error "Middleware response processing failed"
            [("error", VError err)]
      | None => ret tt
      end ;;
      modifyResponse_from chain' resp
  end.

Definition modifyResponse (p : FDOProxy) (resp : Response)
  : M (option error * Response) :=
  modifyResponse_from (middleware p) resp.

(** The [http.HandlerFunc] of [Start]; the result is what it writes to
    the [http.ResponseWriter]. *)
Definition handler (p : FDOProxy) (r : Request) : M Response :=
  let* (err, r) := processRequest p r in
  match err with
  | Some err =>
      slog.Error "Request processing failed" [("error", VError err)] ;;
      ret (http_Error "Internal Server Error" StatusInternalServerError)
  | None => httputil.ServeHTTP (modifyResponse p) r
  end.

Definition Start (p : FDOProxy) (listenAddr : string)
  : M (option error * FDOProxy) :=
  let* (err, p) := startBackendServer p in
  match err with
  | Some err =>
      ret (Some (wrapError "failed to start backend FDO server" err), p)
  | None =>
      let* err := waitForBackend p in
      match err with
      | Some err => ret (Some (wrapError "backend server not ready" err), p)
      | None =>
          match url_Parse_localhost (backendPort p) with
          | inr err => ret (Some (wrapError "invalid backend URL" err), p)
          | inl backendURL =>
              let p := set_backendURL p backendURL in
              let p := set_server p listenAddr in
              slog.Info "FDO proxy server starting"
                [("listen_addr", VString listenAddr);
                 ("backend_port", VInt (backendPort p))] ;;
              let* err := ListenAndServe listenAddr (handler p) in
              ret (Some err, p)
          end
      end
  end.

End proxy.

(** ** [cmd/server/main.go]: how the orchestrator wires the parts *)

Module main.

Definition middlewareList (ledgerClient : option LedgerClient)
    (enableProductPassport : bool) (ownerID : string) : list Middleware :=
  (if enableProductPassport
   then [DI.as_Middleware
           (DI.NewDIMiddleware ledgerClient enableProductPassport)]
   else []) ++
  (if negb (String.eqb ownerID EmptyString)
   then [TO2.as_Middleware (TO2.NewTO2Middleware ledgerClient ownerID)]
   else []).

Definition newProxy (fdoPath listenAddr : string)
    (ledgerClient : option LedgerClient) (enableProductPassport : bool)
    (ownerID : string) : proxy.FDOProxy :=
  proxy.NewFDOProxy fdoPath [] listenAddr ledgerClient
    (middlewareList ledgerClient enableProductPassport ownerID).

End main.

(** ** Observations on runs *)

(** The path [/{namespace}/{n}/msg/{type}]. *)
Definition message_path (ns n t : string) : string :=
  "/" +:+ ns +:+ "/" +:+ n +:+ "/msg/" +:+ t.

(** A path segment: no slash inside. *)
Definition segment (s : string) : Prop := strings.free_of "/" s = true.

(** The handler was invoked in the run that left the events [evs]. *)
Definition entered (handler : string) (evs : list Event) : Prop :=
  In (EvEnter handler) evs.

(** The calls of the External Service Client. *)
Definition is_ledger_call (e : Event) : bool :=
  match e with
  | EvGetProductItemPassport _ _ | EvCreateCommissioningPassport _ _ => true
  | _ => false
  end.

(** The events of the relay: binding the socket and contacting the
    backend. *)
Definition is_relay (e : Event) : bool :=
  match e with
  | EvListen _ | EvRoundTrip _ => true
  | _ => false
  end.

(** The launches of a backend process that succeeded. *)
Definition is_launch (e : Event) : bool :=
  match e with
  | EvProcessStart _ (inl _) => true
  | _ => false
  end.

(** Every interceptor of [chain], run in chain order from the request [req]
    after the events [h], returns nil; the request ends as [req'] and the
    run adds the events [evs]. *)
Inductive requests_pass (E : Env)
  : list Middleware -> Request -> list Event -> Request -> list Event -> Prop :=
| pass_nil (req : Request) (h : list Event) :
    requests_pass E [] req h req []
| pass_cons (mw : Middleware) (chain : list Middleware)
    (req req1 req2 : Request) (h evs1 evs2 : list Event) :
    ProcessRequest mw req E h = (None, req1, evs1) ->
    requests_pass E chain req1 (h ++ evs1) req2 evs2 ->
    requests_pass E (mw :: chain) req h req2 (evs1 ++ evs2).

(** The interceptors of the source: a [*DIMiddleware] or a
    [*TO2Middleware]. *)
Definition source_interceptor (mw : Middleware) : Prop :=
  (exists m, mw = DI.as_Middleware m) \/ (exists m, mw = TO2.as_Middleware m).

(** The interceptor does not write to the response it is given, whether it
    returns an error or not. *)
Definition leaves_response (mw : Middleware) : Prop :=
  forall (resp : Response) (E : Env) (h : list Event),
    snd (fst (ProcessResponse mw resp E h)) = resp.

(** The log lines of the dispatcher. *)
Definition response_failure_logged (err : error) : Event :=
  EvLog LevelError "Middleware response processing failed"
        [("error", VError err)].

Definition request_failure_logged (err : error) : Event :=
  EvLog LevelError "Request processing failed" [("error", VError err)].

(** ** Sample values

    A quiet outside (the launch succeeds, the backend is healthy at once,
    nobody connects), a passport service that is down, and a few requests
    and responses. *)

Module sample.

Definition down : error := externalError 503 "passport service unavailable".

Definition failing_client : LedgerClient :=
  mkLedgerClient (fun _ _ => inr down) (fun _ _ => Some down).

Definition passport : ledger.ProductItemPassport :=
  ledger.mkProductItemPassport PrimFloat.one "abc"
    [ledger.mkProductItemRecord "r1" "sig1" "board";
     ledger.mkProductItemRecord "r2" "sig2" "firmware"]
    (ledger.mkProductItemMetadata "1" "2024-01-01" "SN-1")
    (ledger.mkProductItemAgent "agent" "sig") "top".

Definition working_client : LedgerClient :=
  mkLedgerClient (fun _ _ => inl passport) (fun _ _ => None).

Definition backend_reply : Response :=
  mkResponse StatusOK (<["Message-Type" := ["71"]]> ∅)
             (mkReader "done" None).

Definition quiet : Env :=
  mkEnv (fun _ => mkTime 1700000000 5)
        (fun _ _ => inl 4242%Z)
        (fun _ => 3%nat)
        (fun _ _ => inl StatusOK)
        (fun _ _ => None)
        (fun _ => [])
        (fun _ _ => inl backend_reply).

Definition request (path body : string) : Request :=
  mkRequest "POST" path EmptyString ∅ (mkReader body None).

(** The same outside, with one client that sends one request. *)
Definition busy : Env :=
  mkEnv (clock quiet) (exec_Start quiet) (ticks_before_timeout quiet)
        (http_Get quiet) (net_Listen quiet)
        (fun _ => [request "/fdo/101/msg/10" "productId"])
        (RoundTrip quiet).

Definition fresh_proxy : proxy.FDOProxy :=
  main.newProxy "../go-fdo" "localhost:8080" (Some failing_client)
                true "owner".

Definition response (msgType : string) : Response :=
  mkResponse StatusOK (<["Message-Type" := [msgType]]> ∅)
             (mkReader "payload" None).

(** An interceptor that refuses every request and every response. *)
Definition refusing : Middleware :=
  mkMiddleware (fun req => ret (Some (errorString "refused"), req))
               (fun resp => ret (Some (errorString "refused"), resp)).

End sample.

(** ** [FDOProxy.Stop] *)

Module shutdown.

(** What [Stop] does to the outside: it closes the server, it kills the
    backend process, and it writes to the log. *)
Inductive StopEvent : Type :=
| SvShutdown (addr : string) (failure : option error)
| SvKill (pid : Z) (failure : option error)
| SvEvent (e : Event).

(** What the outside answers to [Server.Shutdown] and [Process.Kill]; both
    see what [Stop] has done so far. *)
Record StopEnv : Type := mkStopEnv {
  server_Shutdown : list StopEvent -> string -> option error;
  process_Kill : list StopEvent -> Z -> option error;
}.

(** The first half of [Stop]: the proxy server. *)
Definition stopServer (S : StopEnv) (p : proxy.FDOProxy) : list StopEvent :=
  match proxy.server p with
  | Some addr =>
      let failure := server_Shutdown S [] addr in
      SvShutdown addr failure ::
      match failure with
      | Some err =>
          [SvEvent (EvLog LevelError "Failed to shutdown proxy server"
                          [("error", VError err)])]
      | None => []
      end
  | None => []
  end.

(** The second half of [Stop]: the backend process, after the events
    [done]. *)
Definition stopBackend (S : StopEnv) (p : proxy.FDOProxy)
    (done : list StopEvent) : list StopEvent :=
  match proxy.backendCmd p with
  | Some cmd =>
      match cmd_Process cmd with
      | Some pid =>
          let failure := process_Kill S done pid in
          SvKill pid failure ::
          match failure with
          | Some err =>
              [SvEvent (EvLog LevelError "Failed to kill backend process"
                              [("error", VError err)])]
          | None => []
          end
      | None => []
      end
  | None => []
  end.

(** [Stop]: the error it returns and what it does. The mutex is left out. *)
Definition Stop (S : StopEnv) (p : proxy.FDOProxy)
  : option error * list StopEvent :=
  let served := stopServer S p in
  (None, served ++ stopBackend S p served).

(** The processes [Stop] asks to kill. *)
Definition killed (evs : list StopEvent) : list Z :=
  flat_map (fun e => match e with SvKill pid _ => [pid] | _ => [] end) evs.

End shutdown.

(** ** [cmd/server/main.go]: the whole of [main] *)

Module orchestrator.

(** The flags, with the names of the variables of [main.go]. *)
Record Flags : Type := mkFlags {
  listenAddr : string;
  fdoPath : string;
  productPassportBaseURL : string;
  commissioningCreateURL : string;
  caCertPath : string;
  clientCertPath : string;
  clientKeyPath : string;
  enableProductPassport : bool;
  ownerID : string;
}.

(** The default values [init] registers. *)
Definition defaults : Flags :=
  mkFlags "localhost:8080" "../go-fdo" EmptyString EmptyString EmptyString
          EmptyString EmptyString false EmptyString.

(** [ledger.NewClient] loads the certificate and key files; whether it
    succeeds is up to the file system, so its outcome is a parameter, given
    the five strings [main] hands it. *)
Definition NewClient_t : Type :=
  string -> string -> string -> string -> string -> LedgerClient + error.

(** "Initialize passport client if configured". *)
Definition initLedgerClient (NewClient : NewClient_t) (f : Flags)
  : M (option LedgerClient) :=
  if negb (String.eqb (productPassportBaseURL f) EmptyString) ||
     negb (String.eqb (commissioningCreateURL f) EmptyString)
  then
    match NewClient (productPassportBaseURL f) (commissioningCreateURL f)
                    (caCertPath f) (clientCertPath f) (clientKeyPath f) with
    | inr err =>
        slog.Warn "Passport client init failed" [("error", VError err)] ;;
        ret None
    | inl c =>
        slog.Info "Passport client initialized"
          [("product_base", VString (productPassportBaseURL f));
           ("commissioning_url", VString (commissioningCreateURL f))] ;;
        ret (Some c)
    end
  else
    slog.Warn "Passport client not configured - functionality will be disabled"
      [] ;;
    ret None.

(** "Create middleware": the list, with the log line of each interceptor
    that is added. *)
Definition createMiddleware (ledgerClient : option LedgerClient) (f : Flags)
  : M (list Middleware) :=
  let middlewareList : list Middleware := [] in
  let* middlewareList :=
    (if enableProductPassport f
     then
       let diMiddleware :=
         DI.NewDIMiddleware ledgerClient (enableProductPassport f) in
       slog.Info "DI middleware enabled for product passport" [] ;;
       ret (middlewareList ++ [DI.as_Middleware diMiddleware])
     else ret middlewareList) in
  if negb (String.eqb (ownerID f) EmptyString)
  then
    let to2Middleware := TO2.NewTO2Middleware ledgerClient (ownerID f) in
    slog.Info "TO2 middleware enabled for commissioning passport"
      [("owner_id", VString (ownerID f))] ;;
    ret (middlewareList ++ [TO2.as_Middleware to2Middleware])
  else ret middlewareList.

(** [main] up to the proxy it creates. *)
Definition wire (NewClient : NewClient_t) (f : Flags) : M proxy.FDOProxy :=
  let* ledgerClient := initLedgerClient NewClient f in
  let* middlewareList := createMiddleware ledgerClient f in
  ret (proxy.NewFDOProxy (fdoPath f) [] (listenAddr f) ledgerClient
                         middlewareList).

(** [main]: the exit status when [Start] returns, 1 after an error ([os.Exit])
    and 0 otherwise. The [debug] flag, which only sets the log level, and the
    goroutine that waits for a signal are left out. *)
Definition run (NewClient : NewClient_t) (f : Flags) : M Z :=
  let* p := wire NewClient f in
  slog.Info "Starting FDO proxy server"
    [("listen_addr", VString (listenAddr f))] ;;
  let* (err, _) := proxy.Start p (listenAddr f) in
  match err with
  | Some err =>
      slog.Error "Proxy server error" [("error", VError err)] ;;
      ret 1%Z
  | None => ret 0%Z
  end.

End orchestrator.

(** ** More observations on runs *)

(** What an interceptor of the source can do: enter a handler, log below
    the error level, read the clock, call the External Service Client. *)
Definition interceptor_event (e : Event) : bool :=
  match e with
  | EvEnter _ | EvLog LevelInfo _ _ | EvLog LevelWarn _ _ | EvNow _
  | EvGetProductItemPassport _ _ | EvCreateCommissioningPassport _ _ => true
  | _ => false
  end.

(** Two requests with the same method, path, query and headers, and with
    bodies that read the same. *)
Definition same_request (req req' : Request) : Prop :=
  Method req' = Method req /\
  URL_Path req' = URL_Path req /\
  URL_RawQuery req' = URL_RawQuery req /\
  req_Header req' = req_Header req /\
  fst (io.ReadAll (req_Body req')) = fst (io.ReadAll (req_Body req)).

(** The interceptor holds no client. *)
Definition without_client (mw : Middleware) : Prop :=
  (exists enabled, mw = DI.as_Middleware (DI.mkDIMiddleware None enabled)) \/
  (exists owner, mw = TO2.as_Middleware (TO2.mkTO2Middleware None owner)).

(** A stream that ends with an error after [data]. *)
Definition broken_body (data : string) (e : error) : Reader :=
  mkReader data (Some e).

(** * Properties *)

(** ** Strings *)

Section StringFacts.

Local Open Scope string_scope.
Local Arguments String.append !_ _ /.

Lemma prefix_inv (p s : string) :
  String.prefix p s = true -> exists post, s = p +:+ post.
Proof.
  revert s; induction p as [|x p IH]; intros s Hp; simpl in *.
  - now exists s.
  - destruct s as [|y s]; simpl in Hp; [discriminate|].
    destruct (ascii_dec x y) as [->|]; [|discriminate].
    destruct (IH _ Hp) as [post ->]. now exists post.
Qed.

Lemma Contains_inv (s substr : string) :
  strings.Contains s substr = true ->
  exists pre post, s = pre +:+ substr +:+ post.
Proof.
  induction s as [|x s IH]; cbn [strings.Contains]; intros Hc.
  - destruct (strings.HasPrefix "" substr) eqn:Hp; [|discriminate Hc].
    destruct (prefix_inv _ _ Hp) as [post Hpost].
    exists "", post. exact Hpost.
  - destruct (strings.HasPrefix (String x s) substr) eqn:Hp.
    + destruct (prefix_inv _ _ Hp) as [post Hpost].
      exists "", post. exact Hpost.
    + destruct (IH Hc) as (pre & post & ->).
      now exists (String x pre), post.
Qed.

Example Split_samples :
  strings.Split "/fdo/101/msg/10" "/" = [""; "fdo"; "101"; "msg"; "10"] /\
  strings.Split "" "/" = [""] /\
  strings.Split "fdo/" "/" = ["fdo"; ""] /\
  strings.Split "a, b, c" ", " = ["a"; "b"; "c"] /\
  strings.Split "aaa" "aa" = [""; "a"].
Proof. repeat split. Qed.

Example HasSuffix_samples :
  strings.HasSuffix "/fdo/101/msg/10" "/10" = true /\
  strings.HasSuffix "/fdo/101/msg/110" "/10" = false /\
  strings.HasSuffix "10" "/10" = false /\
  strings.Contains "x/fdo/101/msg/" "/fdo/101/msg/" = true /\
  strings.Contains "/fdo/101/ms" "/fdo/101/msg/" = false.
Proof. repeat split. Qed.

Lemma Split_byte (s : string) (sep : ascii) :
  strings.Split s (String sep "") = strings.SplitByte s sep.
Proof.
  unfold strings.Split.
  induction s as [|x s IH]; cbn [strings.genSplit strings.SplitByte];
    [reflexivity|].
  unfold strings.HasPrefix. cbn [String.prefix String.length Nat.sub].
  assert (String.prefix "" s = true) as -> by now destruct s.
  rewrite IH. destruct (Ascii.eqb_spec x sep) as [->|Hne].
  - now destruct (ascii_dec sep sep).
  - destruct (ascii_dec sep x) as [->|_]; [now destruct Hne|reflexivity].
Qed.

Lemma SplitByte_cons (s : string) (sep : ascii) :
  exists piece rest, strings.SplitByte s sep = piece :: rest.
Proof.
  destruct s as [|x s]; simpl; [now eexists _, _|].
  destruct (Ascii.eqb x sep); [now eexists _, _|].
  destruct (strings.SplitByte s sep); now eexists _, _.
Qed.

Lemma SplitByte_app_sep (a b : string) (sep : ascii) :
  strings.SplitByte (a +:+ String sep b) sep =
  (strings.SplitByte a sep ++ strings.SplitByte b sep)%list.
Proof.
  induction a as [|x a IH]; simpl.
  - now rewrite Ascii.eqb_refl.
  - destruct (Ascii.eqb x sep); [now rewrite IH|].
    rewrite IH. destruct (SplitByte_cons a sep) as (piece & rest & ->).
    reflexivity.
Qed.

Lemma SplitByte_free (s : string) (sep : ascii) :
  strings.free_of sep s = true -> strings.SplitByte s sep = [s].
Proof.
  induction s as [|x s IH]; simpl; [reflexivity|].
  destruct (Ascii.eqb x sep); simpl; [intros Hf; discriminate Hf|].
  intros Hs. now rewrite (IH Hs).
Qed.

Lemma SplitByte_free_app (a b : string) (sep : ascii) :
  strings.free_of sep a = true ->
  strings.SplitByte (a +:+ String sep b) sep = a :: strings.SplitByte b sep.
Proof.
  intros Ha. now rewrite SplitByte_app_sep, (SplitByte_free _ _ Ha).
Qed.

(** The path [/ns/n/msg/t], its segments free of slashes, splits into the
    empty piece before the first slash and its four segments. *)
Lemma Split_message_path (ns n t : string) :
  strings.free_of "/" ns = true ->
  strings.free_of "/" n = true ->
  strings.free_of "/" t = true ->
  strings.Split ("/" +:+ ns +:+ "/" +:+ n +:+ "/msg/" +:+ t) "/" =
  [""; ns; n; "msg"; t].
Proof.
  intros Hns Hn Ht. rewrite Split_byte.
  change ("/" +:+ ns +:+ "/" +:+ n +:+ "/msg/" +:+ t)
    with ("" +:+ String "/" (ns +:+ String "/" (n +:+ String "/"
            ("msg" +:+ String "/" t)))).
  rewrite !SplitByte_free_app by (assumption || reflexivity).
  now rewrite SplitByte_free.
Qed.

(** Such a path holds [/fdo/101/msg/] only as its own first three
    segments. *)
Lemma Contains_message_path (ns n t : string) :
  strings.free_of "/" ns = true ->
  strings.free_of "/" n = true ->
  strings.free_of "/" t = true ->
  strings.Contains ("/" +:+ ns +:+ "/" +:+ n +:+ "/msg/" +:+ t)
                   "/fdo/101/msg/" = true ->
  ns = "fdo" /\ n = "101".
Proof.
  intros Hns Hn Ht Hc.
  pose proof (Split_message_path ns n t Hns Hn Ht) as Hsplit.
  destruct (Contains_inv _ _ Hc) as (pre & post & Heq).
  rewrite Heq in Hsplit. rewrite Split_byte in Hsplit.
  change (pre +:+ "/fdo/101/msg/" +:+ post)
    with (pre +:+ String "/" ("fdo" +:+ String "/" ("101" +:+ String "/"
            ("msg" +:+ String "/" post)))) in Hsplit.
  rewrite SplitByte_app_sep in Hsplit.
  rewrite !SplitByte_free_app in Hsplit by reflexivity.
  destruct (SplitByte_cons pre "/") as (x & xs & Hpre).
  destruct (SplitByte_cons post "/") as (y & ys & Hpost).
  rewrite Hpre, Hpost in Hsplit. simpl in Hsplit.
  destruct xs as [|z xs]; simpl in Hsplit.
  - inversion Hsplit; subst. now split.
  - exfalso. apply (f_equal (@length string)) in Hsplit.
    simpl in Hsplit. rewrite length_app in Hsplit. simpl in Hsplit. lia.
Qed.

End StringFacts.

(** ** Running computations *)

Ltac run :=
  repeat (unfold bind, ret, emit, enter, slog.Info, slog.Warn, slog.Error,
            call_GetProductItemPassport, call_CreateCommissioningPassport,
            time_Now, http_Get_, Cmd_Start in *;
          cbn beta iota zeta delta [fst snd] in *).

Section MonadLaws.

Context {A B : Type}.

Lemma bind_ret_l (a : A) (k : A -> M B) (E : Env) (h : list Event) :
  bind (ret a) k E h = k a E h.
Proof.
  unfold bind, ret. rewrite app_nil_r. now destruct (k a E h).
Qed.

Lemma bind_run (c : M A) (k : A -> M B) (E : Env) (h : list Event)
    (a : A) (evs : list Event) :
  c E h = (a, evs) ->
  bind c k E h = (fst (k a E (h ++ evs)), evs ++ snd (k a E (h ++ evs))).
Proof.
  intros Hc. unfold bind. rewrite Hc. now destruct (k a E (h ++ evs)).
Qed.

End MonadLaws.

(** ** The interceptors *)

Section Interceptors.

Variables (E : Env) (h : list Event).

Lemma handleDIAppStart_entered (m : DI.DIMiddleware) (req : Request) :
  entered "handleDIAppStart" (snd (DI.handleDIAppStart m req E h)).
Proof.
  unfold DI.handleDIAppStart, entered. run.
  destruct (DI.enableProductPassport m), (DI.ledgerClient m) as [client|];
    try (simpl; now left).
  unfold io.ReadAll.
  destruct (rd_err (req_Body req)); [simpl; now left|].
  destruct (String.eqb _ _); [simpl; now left|]. run.
  destruct (GetProductItemPassport client _ _); simpl; now left.
Qed.

Lemma ProcessRequest_message_path (m : DI.DIMiddleware) (req : Request)
    (ns n t : string) :
  segment ns -> segment n -> segment t ->
  URL_Path req = message_path ns n t ->
  DI.ProcessRequest m req E h =
  if DI.isDIRequest req && String.eqb t "10"
  then DI.handleDIAppStart m req E h
  else (None, req, []).
Proof.
  intros Hns Hn Ht Hpath. unfold DI.ProcessRequest.
  destruct (DI.isDIRequest req); [|reflexivity].
  rewrite Hpath. unfold message_path.
  rewrite (Split_message_path ns n t Hns Hn Ht). simpl.
  now destruct (String.eqb t "10").
Qed.

End Interceptors.

(** *** Classification of requests by the Stage-A interceptor *)

(** C3, as the specification states it, fails: the interceptor looks for the
    namespace [fdo] and the version [101], so on the path [/abc/101/msg/10]
    the type is "10" and yet [handleDIAppStart] is not invoked. *)
Lemma C3_other_namespace_not_handled :
  ~ (entered "handleDIAppStart"
       (snd (DI.ProcessRequest
               (DI.NewDIMiddleware (Some sample.working_client) true)
               (sample.request (message_path "abc" "101" "10") "productId")
               sample.quiet []))
     <-> "10" = "10").
Proof.
  intros [_ Hinvoked]. specialize (Hinvoked eq_refl).
  vm_compute in Hinvoked. exact Hinvoked.
Qed.

(** C3 (amended): for every request whose URL path is
    [/{namespace}/{n}/msg/{type}], the request handler [handleDIAppStart] of
    the Stage-A interceptor is invoked if and only if the namespace is
    [fdo], [n] is [101] and the type is [10]; then [ProcessRequest] is that
    handler, and in every other case it returns nil, leaves the request as
    it is and does nothing at all, so makes no external call. *)
Theorem C3_request_classification
    (m : DI.DIMiddleware) (req : Request) (ns n t : string)
    (E : Env) (h : list Event) :
  segment ns -> segment n -> segment t ->
  URL_Path req = message_path ns n t ->
  (entered "handleDIAppStart" (snd (DI.ProcessRequest m req E h))
   <-> ns = "fdo" /\ n = "101" /\ t = "10") /\
  (ns = "fdo" /\ n = "101" /\ t = "10" ->
   DI.ProcessRequest m req E h = DI.handleDIAppStart m req E h) /\
  (~ (ns = "fdo" /\ n = "101" /\ t = "10") ->
   DI.ProcessRequest m req E h = (None, req, [])).
Proof.
  intros Hns Hn Ht Hpath.
  pose proof (ProcessRequest_message_path E h m req ns n t Hns Hn Ht Hpath)
    as Hrun.
  assert (Hyes : ns = "fdo" /\ n = "101" /\ t = "10" ->
                 DI.isDIRequest req && String.eqb t "10" = true).
  { intros (-> & -> & ->). unfold DI.isDIRequest. now rewrite Hpath. }
  assert (Hno : DI.isDIRequest req && String.eqb t "10" = true ->
                ns = "fdo" /\ n = "101" /\ t = "10").
  { intros [Hdi Heq]%andb_prop. apply String.eqb_eq in Heq.
    unfold DI.isDIRequest in Hdi. apply andb_prop in Hdi as [Hc _].
    rewrite Hpath in Hc.
    destruct (Contains_message_path ns n t Hns Hn Ht Hc). now repeat split. }
  destruct (DI.isDIRequest req && String.eqb t "10") eqn:Hsel; rewrite Hrun.
  - split; [split|split].
    + intros _. now apply Hno.
    + intros _. apply handleDIAppStart_entered.
    + reflexivity.
    + intros Hnot. exfalso. now apply Hnot, Hno.
  - split; [split|split].
    + intros [].
    + intros Hall. now specialize (Hyes Hall).
    + intros Hall. now specialize (Hyes Hall).
    + reflexivity.
Qed.

Lemma C3_request_classification_witness :
  let req := sample.request (message_path "fdo" "101" "10") "productId" in
  let m := DI.NewDIMiddleware (Some sample.failing_client) true in
  (segment "fdo" /\ segment "101" /\ segment "10" /\
   URL_Path req = message_path "fdo" "101" "10") /\
  entered "handleDIAppStart" (snd (DI.ProcessRequest m req sample.quiet [])).
Proof.
  intros req m.
  assert (Hin : segment "fdo" /\ segment "101" /\ segment "10" /\
                URL_Path req = message_path "fdo" "101" "10")
    by (repeat split; reflexivity).
  split; [exact Hin|].
  destruct Hin as (Hns & Hn & Ht & Hpath).
  destruct (C3_request_classification m req "fdo" "101" "10" sample.quiet []
              Hns Hn Ht Hpath) as (Hiff & _ & _).
  apply Hiff. repeat split; reflexivity.
Defined.

(** *** Classification of responses *)

Section ResponseClassification.

Variables (E : Env) (h : list Event).

Lemma DI_ProcessResponse_by_header (m : DI.DIMiddleware) (resp : Response) :
  DI.ProcessResponse m resp E h =
  if String.eqb (Header_Get (resp_Header resp) "Message-Type") "11"
  then DI.handleDISetCredentials m resp E h
  else (None, []).
Proof.
  unfold DI.ProcessResponse, DI.isDIResponse.
  destruct (String.eqb _ "11"); [reflexivity|].
  now destruct (String.eqb _ "13").
Qed.

Lemma TO2_ProcessResponse_by_header (m : TO2.TO2Middleware) (resp : Response) :
  TO2.ProcessResponse m resp E h =
  if String.eqb (Header_Get (resp_Header resp) "Message-Type") "71"
  then TO2.handleTO2Done2 m resp E h
  else (None, []).
Proof.
  unfold TO2.ProcessResponse, TO2.isTO2Response.
  now destruct (String.eqb _ "71").
Qed.

Lemma handleDISetCredentials_run (m : DI.DIMiddleware) (resp : Response) :
  DI.handleDISetCredentials m resp E h =
  (None, [EvEnter "handleDISetCredentials";
          EvLog LevelInfo "DI.SetCredentials completed successfully" []]).
Proof. reflexivity. Qed.

(** What [handleTO2Done2] does with a client: it reads the clock, makes
    one write call and logs how the call ended. *)
Lemma handleTO2Done2_run (m : TO2.TO2Middleware) (resp : Response)
    (client : LedgerClient) :
  TO2.ledgerClient m = Some client ->
  let now := clock E (h ++ [EvEnter "handleTO2Done2"]) in
  let reqBody :=
    ledger.mkCommissioningCreateRequest
      (TO2.extractDeviceGUID m resp) EmptyString EmptyString
      (fmt.Sprintf_d (UnixNano now)) in
  let failure :=
    CreateCommissioningPassport client
      (h ++ [EvEnter "handleTO2Done2"; EvNow now]) reqBody in
  TO2.handleTO2Done2 m resp E h =
  (None,
   [EvEnter "handleTO2Done2"; EvNow now;
    EvCreateCommissioningPassport reqBody failure;
    match failure with
    | Some err =>
        EvLog LevelWarn "Failed to create commissioning passport"
          [("controller_uuid", VString (TO2.extractDeviceGUID m resp));
           ("error", VError err)]
    | None =>
        EvLog LevelInfo "Created commissioning passport"
          [("controller_uuid", VString (TO2.extractDeviceGUID m resp))]
    end]).
Proof.
  intros Hclient now reqBody failure.
  unfold TO2.handleTO2Done2. rewrite Hclient. run.
  change (TO2.extractDeviceGUID m resp =? "")%string with false.
  cbn beta iota. run. rewrite <- !app_assoc. cbn [app].
  fold now. fold reqBody. fold failure.
  destruct failure; reflexivity.
Qed.

Lemma handleTO2Done2_entered (m : TO2.TO2Middleware) (resp : Response) :
  entered "handleTO2Done2" (snd (TO2.handleTO2Done2 m resp E h)).
Proof.
  destruct (TO2.ledgerClient m) as [client|] eqn:Hclient.
  - rewrite (handleTO2Done2_run m resp client Hclient). now left.
  - unfold TO2.handleTO2Done2. rewrite Hclient. now left.
Qed.

End ResponseClassification.

(** C4: the value of the [Message-Type] header alone determines which
    response handler fires. The Stage-A interceptor invokes
    [handleDISetCredentials] if and only if the header is "11", the Stage-B
    interceptor invokes [handleTO2Done2] if and only if it is "71"; with any
    other value, and with no such header, both [ProcessResponse] return nil
    and do nothing; and two responses with the same header value are
    treated alike. *)
Theorem C4_response_classification
    (dm : DI.DIMiddleware) (tm : TO2.TO2Middleware) (resp : Response)
    (E : Env) (h : list Event) :
  let msgType := Header_Get (resp_Header resp) "Message-Type" in
  (entered "handleDISetCredentials" (snd (DI.ProcessResponse dm resp E h))
   <-> msgType = "11") /\
  (entered "handleTO2Done2" (snd (TO2.ProcessResponse tm resp E h))
   <-> msgType = "71") /\
  (msgType = "11" ->
   DI.ProcessResponse dm resp E h = DI.handleDISetCredentials dm resp E h) /\
  (msgType = "71" ->
   TO2.ProcessResponse tm resp E h = TO2.handleTO2Done2 tm resp E h) /\
  (msgType <> "11" -> DI.ProcessResponse dm resp E h = (None, [])) /\
  (msgType <> "71" -> TO2.ProcessResponse tm resp E h = (None, [])) /\
  (resp_Header resp !! "Message-Type" = None ->
   DI.ProcessResponse dm resp E h = (None, []) /\
   TO2.ProcessResponse tm resp E h = (None, [])) /\
  (forall resp' : Response,
     Header_Get (resp_Header resp') "Message-Type" = msgType ->
     DI.ProcessResponse dm resp' E h = DI.ProcessResponse dm resp E h /\
     TO2.ProcessResponse tm resp' E h = TO2.ProcessResponse tm resp E h).
Proof.
  intros msgType.
  pose proof (DI_ProcessResponse_by_header E h dm resp) as Hdi.
  pose proof (TO2_ProcessResponse_by_header E h tm resp) as Hto2.
  fold msgType in Hdi, Hto2.
  assert (Habsent : resp_Header resp !! "Message-Type" = None -> msgType = "").
  { intros Hnone. unfold msgType, Header_Get. now rewrite Hnone. }
  split; [|split; [|split; [|split; [|split; [|split; [|split]]]]]].
  - rewrite Hdi. destruct (String.eqb_spec msgType "11") as [Heq|Hne].
    + split; [easy|]. intros _. rewrite handleDISetCredentials_run. now left.
    + split; [intros []|easy].
  - rewrite Hto2. destruct (String.eqb_spec msgType "71") as [Heq|Hne].
    + split; [easy|]. intros _. apply handleTO2Done2_entered.
    + split; [intros []|easy].
  - intros Heq. rewrite Hdi, Heq. reflexivity.
  - intros Heq. rewrite Hto2, Heq. reflexivity.
  - intros Hne. rewrite Hdi. now destruct (String.eqb_spec msgType "11").
  - intros Hne. rewrite Hto2. now destruct (String.eqb_spec msgType "71").
  - intros Hnone. rewrite Hdi, Hto2, (Habsent Hnone). now split.
  - intros resp' Hsame.
    rewrite Hdi, Hto2, DI_ProcessResponse_by_header,
      TO2_ProcessResponse_by_header, Hsame.
    split.
    + now destruct (String.eqb msgType "11").
    + destruct (String.eqb msgType "71"); [|reflexivity].
      destruct (TO2.ledgerClient tm) as [client|] eqn:Hclient.
      * now rewrite !(handleTO2Done2_run E h tm _ client Hclient).
      * unfold TO2.handleTO2Done2. now rewrite Hclient.
Qed.

Lemma C4_response_classification_witness :
  let dm := DI.NewDIMiddleware (Some sample.working_client) true in
  let tm := TO2.NewTO2Middleware (Some sample.working_client) "owner" in
  Header_Get (resp_Header (sample.response "71")) "Message-Type" = "71" /\
  Header_Get (resp_Header (sample.response "71")) "Message-Type" <> "11" /\
  TO2.ProcessResponse tm (sample.response "71") sample.quiet [] =
  TO2.handleTO2Done2 tm (sample.response "71") sample.quiet [] /\
  DI.ProcessResponse dm (sample.response "71") sample.quiet [] = (None, []).
Proof.
  intros dm tm.
  assert (H71 : Header_Get (resp_Header (sample.response "71")) "Message-Type"
                = "71") by reflexivity.
  assert (H11 : Header_Get (resp_Header (sample.response "71")) "Message-Type"
                <> "11") by (rewrite H71; discriminate).
  destruct (C4_response_classification dm tm (sample.response "71")
              sample.quiet []) as (_ & _ & _ & Hto2 & Hdi & _).
  split; [exact H71|]. split; [exact H11|]. split.
  - exact (Hto2 H71).
  - exact (Hdi H11).
Defined.

(** *** The request handler of the Stage-A interceptor *)

Section AppStart.

Variables (E : Env) (h : list Event).

(** Without the feature the handler returns at once. *)
Lemma handleDIAppStart_off (m : DI.DIMiddleware) (req : Request) :
  DI.enableProductPassport m = false \/ DI.ledgerClient m = None ->
  DI.handleDIAppStart m req E h = (None, req, [EvEnter "handleDIAppStart"]).
Proof.
  unfold DI.handleDIAppStart. run.
  intros [Hoff|Hnil].
  - rewrite Hoff. reflexivity.
  - rewrite Hnil. now destruct (DI.enableProductPassport m).
Qed.

(** With the feature, the three ways the handler ends: the body cannot be
    read; no product identifier is found; the passport service is asked. *)
Lemma handleDIAppStart_on (m : DI.DIMiddleware) (req : Request)
    (client : LedgerClient) :
  DI.enableProductPassport m = true ->
  DI.ledgerClient m = Some client ->
  let body := rd_data (req_Body req) in
  let restored := set_req_Body req (io.NopCloser_NewReader body) in
  let productID := DI.extractProductID body in
  let answer :=
    GetProductItemPassport client (h ++ [EvEnter "handleDIAppStart"])
                           productID in
  DI.handleDIAppStart m req E h =
  match rd_err (req_Body req) with
  | Some e =>
      (Some (wrapError "failed to read request body" e),
       set_req_Body req (mkReader EmptyString (Some e)),
       [EvEnter "handleDIAppStart"])
  | None =>
      if String.eqb productID EmptyString
      then (None, restored, [EvEnter "handleDIAppStart"])
      else
        (None, restored,
         [EvEnter "handleDIAppStart";
          EvGetProductItemPassport productID (failure_of answer);
          match answer with
          | inr err =>
              EvLog LevelWarn "Failed to get product passport"
                [("product_id", VString productID); ("error", VError err)]
          | inl passport =>
              EvLog LevelInfo "Retrieved product item passport"
                [("uuid", VString (ledger.UUID passport));
                 ("records",
                  VInt (Z.of_nat (length (ledger.Records passport))))]
          end])
  end.
Proof.
  intros Hon Hclient body restored productID answer.
  unfold DI.handleDIAppStart. rewrite Hon, Hclient. run.
  unfold io.ReadAll.
  destruct (rd_err (req_Body req)) as [e|]; [reflexivity|].
  fold body. fold productID.
  destruct (String.eqb productID EmptyString); [reflexivity|].
  run. fold answer. destruct answer; reflexivity.
Qed.

End AppStart.

(** C5: when the feature is not configured no call of the External Service
    Client is made. With [enableProductPassport] false or a nil client,
    [handleDIAppStart] returns nil at once: the request is as it was, nothing
    is read, logged or called. With a nil client [handleTO2Done2] returns
    nil at once. So [ProcessRequest] of Stage A and [ProcessResponse] of
    Stage B make no call, whatever the message type. *)
Theorem C5_no_feature_no_call
    (dm : DI.DIMiddleware) (tm : TO2.TO2Middleware)
    (req : Request) (resp : Response) (E : Env) (h : list Event) :
  (DI.enableProductPassport dm = false \/ DI.ledgerClient dm = None ->
   DI.handleDIAppStart dm req E h = (None, req, [EvEnter "handleDIAppStart"])
   /\ fst (DI.ProcessRequest dm req E h) = (None, req)
   /\ List.filter is_ledger_call (snd (DI.ProcessRequest dm req E h)) = []) /\
  (TO2.ledgerClient tm = None ->
   TO2.handleTO2Done2 tm resp E h = (None, [EvEnter "handleTO2Done2"])
   /\ fst (TO2.ProcessResponse tm resp E h) = None
   /\ List.filter is_ledger_call (snd (TO2.ProcessResponse tm resp E h)) = []).
Proof.
  split.
  - intros Hoff. pose proof (handleDIAppStart_off E h dm req Hoff) as Hrun.
    split; [exact Hrun|].
    unfold DI.ProcessRequest.
    destruct (negb (DI.isDIRequest req)); [now split|].
    destruct (length _ <? 5)%nat; [now split|].
    destruct (String.eqb _ "10"); [|now split].
    rewrite Hrun. now split.
  - intros Hnil.
    assert (Hrun : TO2.handleTO2Done2 tm resp E h =
                   (None, [EvEnter "handleTO2Done2"])).
    { unfold TO2.handleTO2Done2. now rewrite Hnil. }
    split; [exact Hrun|].
    rewrite TO2_ProcessResponse_by_header.
    destruct (String.eqb _ "71"); [|now split].
    rewrite Hrun. now split.
Qed.

Lemma C5_no_feature_no_call_witness :
  let dm := DI.NewDIMiddleware None true in
  let tm := TO2.NewTO2Middleware None "owner" in
  let req := sample.request (message_path "fdo" "101" "10") "productId" in
  (DI.enableProductPassport dm = false \/ DI.ledgerClient dm = None) /\
  TO2.ledgerClient tm = None /\
  DI.handleDIAppStart dm req sample.quiet [] =
  (None, req, [EvEnter "handleDIAppStart"]) /\
  TO2.handleTO2Done2 tm (sample.response "71") sample.quiet [] =
  (None, [EvEnter "handleTO2Done2"]).
Proof.
  intros dm tm req.
  assert (Hdi : DI.enableProductPassport dm = false \/ DI.ledgerClient dm = None)
    by (right; reflexivity).
  assert (Hto2 : TO2.ledgerClient tm = None) by reflexivity.
  destruct (C5_no_feature_no_call dm tm req (sample.response "71")
              sample.quiet []) as [Hreq Hresp].
  split; [exact Hdi|]. split; [exact Hto2|]. split.
  - exact (proj1 (Hreq Hdi)).
  - exact (proj1 (Hresp Hto2)).
Defined.

(** C6: when [handleDIAppStart] returns successfully with enrichment
    enabled, reading the body of the request gives the bytes of the original
    body and ends as the original would have; with a client the body is a
    fresh reader over those bytes; no other field of the request has
    changed. *)
Theorem C6_body_restored
    (m : DI.DIMiddleware) (req req' : Request) (E : Env)
    (h evs : list Event) :
  DI.enableProductPassport m = true ->
  DI.handleDIAppStart m req E h = (None, req', evs) ->
  fst (io.ReadAll (req_Body req')) = fst (io.ReadAll (req_Body req)) /\
  (DI.ledgerClient m <> None ->
   req_Body req' = io.NopCloser_NewReader (rd_data (req_Body req))) /\
  Method req' = Method req /\
  URL_Path req' = URL_Path req /\
  URL_RawQuery req' = URL_RawQuery req /\
  req_Header req' = req_Header req.
Proof.
  intros Hon Hrun.
  destruct (DI.ledgerClient m) as [client|] eqn:Hclient.
  - rewrite (handleDIAppStart_on E h m req client Hon Hclient) in Hrun.
    destruct (rd_err (req_Body req)) as [e|] eqn:Herr; [discriminate|].
    assert (Hreq : req' = set_req_Body req
                     (io.NopCloser_NewReader (rd_data (req_Body req)))).
    { destruct (String.eqb _ EmptyString); now inversion Hrun. }
    subst req'. unfold io.ReadAll. simpl. rewrite Herr. now repeat split.
  - rewrite (handleDIAppStart_off E h m req (or_intror Hclient)) in Hrun.
    inversion Hrun; subst. now repeat split.
Qed.

Lemma C6_body_restored_witness :
  let m := DI.NewDIMiddleware (Some sample.working_client) true in
  let req := sample.request (message_path "fdo" "101" "10") "productId" in
  exists req' evs,
    DI.enableProductPassport m = true /\
    DI.handleDIAppStart m req sample.quiet [] = (None, req', evs) /\
    fst (io.ReadAll (req_Body req')) = ("productId", None).
Proof.
  intros m req.
  destruct (DI.handleDIAppStart m req sample.quiet []) as [[err req'] evs]
    eqn:Hrun.
  assert (Herr : err = None) by (vm_compute in Hrun; congruence).
  subst err. exists req', evs.
  split; [reflexivity|]. split; [reflexivity|].
  exact (proj1 (C6_body_restored m req req' sample.quiet [] evs eq_refl Hrun)).
Defined.

(** *** The commissioning call of the Stage-B interceptor *)

Lemma UnixNano_exact (t : Time) :
  (- 2 ^ 63 <= unixSec t * 1000000000 + nsec t < 2 ^ 63)%Z ->
  UnixNano t = (unixSec t * 1000000000 + nsec t)%Z.
Proof.
  intros Hrange. unfold UnixNano, wrap64.
  rewrite Z.mod_small; lia.
Qed.

Example Sprintf_d_timestamp :
  fmt.Sprintf_d (UnixNano (mkTime 1700000000 5)) = "1700000000000000005".
Proof. vm_compute. reflexivity. Qed.

Example Sprintf_d_zero_and_negative :
  fmt.Sprintf_d 0 = "0" /\ fmt.Sprintf_d (-12) = "-12".
Proof. split; vm_compute; reflexivity. Qed.

(** Two numbers with the same decimal rendering are equal. *)
Lemma Sprintf_d_inj (x y : Z) : fmt.Sprintf_d x = fmt.Sprintf_d y -> x = y.
Proof. unfold fmt.Sprintf_d. apply (inj pretty). Qed.

(** C8: for a response whose [Message-Type] header is "71", with a client
    configured, the Stage-B interceptor reads the clock and makes exactly
    one write call, and no other call of the External Service Client. The
    request of that call has [ControllerUUID] equal to the extracted device
    identifier, [Cert] and [DeployedLocation] empty, and [Timestamp] equal
    to the clock reading, in nanoseconds since the epoch, as a decimal
    string. *)
Theorem C8_commissioning_call
    (m : TO2.TO2Middleware) (resp : Response) (client : LedgerClient)
    (E : Env) (h : list Event) :
  TO2.ledgerClient m = Some client ->
  Header_Get (resp_Header resp) "Message-Type" = "71" ->
  let now := clock E (h ++ [EvEnter "handleTO2Done2"]) in
  let reqBody :=
    ledger.mkCommissioningCreateRequest
      (TO2.extractDeviceGUID m resp) EmptyString EmptyString
      (fmt.Sprintf_d (UnixNano now)) in
  exists (failure : option error) (log : Event),
    TO2.ProcessResponse m resp E h =
    (None,
     [EvEnter "handleTO2Done2"; EvNow now;
      EvCreateCommissioningPassport reqBody failure; log]) /\
    is_ledger_call log = false /\
    List.filter is_ledger_call (snd (TO2.ProcessResponse m resp E h)) =
    [EvCreateCommissioningPassport reqBody failure] /\
    ((- 2 ^ 63 <= unixSec now * 1000000000 + nsec now < 2 ^ 63)%Z ->
     ledger.Timestamp reqBody =
     fmt.Sprintf_d (unixSec now * 1000000000 + nsec now)).
Proof.
  intros Hclient Hdone now reqBody.
  rewrite TO2_ProcessResponse_by_header, Hdone. cbn [String.eqb Ascii.eqb].
  change ("71" =? "71")%string with true. cbn iota.
  rewrite (handleTO2Done2_run E h m resp client Hclient).
  fold now. fold reqBody.
  set (failure := CreateCommissioningPassport client _ reqBody).
  eexists failure, _. split; [reflexivity|].
  split; [now destruct failure|].
  split.
  - cbn [snd List.filter is_ledger_call]. now destruct failure.
  - intros Hrange. cbn [ledger.Timestamp reqBody].
    now rewrite (UnixNano_exact now Hrange).
Qed.

Lemma C8_commissioning_call_witness :
  let m := TO2.NewTO2Middleware (Some sample.failing_client) "owner" in
  let resp := sample.response "71" in
  TO2.ledgerClient m = Some sample.failing_client /\
  Header_Get (resp_Header resp) "Message-Type" = "71" /\
  exists failure log,
    TO2.ProcessResponse m resp sample.quiet [] =
    (None,
     [EvEnter "handleTO2Done2"; EvNow (mkTime 1700000000 5);
      EvCreateCommissioningPassport
        (ledger.mkCommissioningCreateRequest
           "example-device-guid" "" "" "1700000000000000005")
        failure;
      log]).
Proof.
  intros m resp.
  split; [reflexivity|]. split; [reflexivity|].
  destruct (C8_commissioning_call m resp sample.failing_client sample.quiet []
              eq_refl eq_refl) as (failure & log & Hrun & _).
  exists failure, log. exact Hrun.
Defined.

(** ** The dispatcher *)

Section Chains.

Variable E : Env.

Lemma processRequest_from_cons (mw : Middleware) (chain : list Middleware)
    (req req1 : Request) (h evs1 : list Event) (err : option error) :
  ProcessRequest mw req E h = (err, req1, evs1) ->
  proxy.processRequest_from (mw :: chain) req E h =
  match err with
  | Some e =>
      (Some (wrapError "middleware request processing failed" e), req1, evs1)
  | None =>
      (fst (proxy.processRequest_from chain req1 E (h ++ evs1)),
       evs1 ++ snd (proxy.processRequest_from chain req1 E (h ++ evs1)))
  end.
Proof.
  intros Hmw. cbn [proxy.processRequest_from].
  rewrite (bind_run _ _ _ _ _ _ Hmw). destruct err as [e|].
  - unfold ret. cbn [fst snd]. now rewrite app_nil_r.
  - reflexivity.
Qed.

Lemma processRequest_from_pass (chain : list Middleware)
    (req req' : Request) (h evs : list Event) :
  requests_pass E chain req h req' evs ->
  proxy.processRequest_from chain req E h = (None, req', evs).
Proof.
  induction 1 as [|mw chain req req1 req2 h evs1 evs2 Hmw _ IH].
  - reflexivity.
  - rewrite (processRequest_from_cons _ _ _ _ _ _ _ Hmw), IH. reflexivity.
Qed.

Lemma processRequest_from_fail (pre post : list Middleware) (mw : Middleware)
    (req req1 req2 : Request) (h evs1 evs2 : list Event) (err : error) :
  requests_pass E pre req h req1 evs1 ->
  ProcessRequest mw req1 E (h ++ evs1) = (Some err, req2, evs2) ->
  proxy.processRequest_from (pre ++ mw :: post) req E h =
  (Some (wrapError "middleware request processing failed" err), req2,
   evs1 ++ evs2).
Proof.
  intros Hpre. revert evs2.
  induction Hpre as [|mw0 chain req req1 req3 h evs1 evs3 Hmw0 _ IH];
    intros evs2 Hmw.
  - rewrite app_nil_r in Hmw. cbn [app].
    now rewrite (processRequest_from_cons _ _ _ _ _ _ _ Hmw).
  - rewrite app_assoc in Hmw. cbn [app].
    rewrite (processRequest_from_cons _ _ _ _ _ _ _ Hmw0), (IH _ Hmw).
    cbn [fst snd]. now rewrite app_assoc.
Qed.

(** Every run of the chain is of one of the two kinds. *)
Lemma processRequest_from_cases (chain : list Middleware) (req : Request)
    (h : list Event) :
  (exists req' evs, requests_pass E chain req h req' evs) \/
  (exists pre mw post req1 evs1 err req2 evs2,
     chain = pre ++ mw :: post /\
     requests_pass E pre req h req1 evs1 /\
     ProcessRequest mw req1 E (h ++ evs1) = (Some err, req2, evs2)).
Proof.
  revert req h. induction chain as [|mw chain IH]; intros req h.
  - left. exists req, []. constructor.
  - destruct (ProcessRequest mw req E h) as [[[err|] req1] evs1] eqn:Hmw.
    + right. exists [], mw, chain, req, [], err, req1, evs1.
      split; [reflexivity|]. split; [constructor|].
      now rewrite app_nil_r.
    + destruct (IH req1 (h ++ evs1))
        as [(req' & evs & Hpass)
           |(pre & mw' & post & req2 & evs2 & err & req3 & evs3
             & -> & Hpass & Hfail)].
      * left. exists req', (evs1 ++ evs). econstructor; eassumption.
      * right.
        exists (mw :: pre), mw', post, req2, (evs1 ++ evs2), err, req3, evs3.
        split; [reflexivity|]. split; [econstructor; eassumption|].
        now rewrite app_assoc.
Qed.

Lemma modifyResponse_from_cons (mw : Middleware) (chain : list Middleware)
    (resp resp1 : Response) (h evs1 : list Event) (err : option error) :
  ProcessResponse mw resp E h = (err, resp1, evs1) ->
  let logged :=
    match err with
    | Some e => [response_failure_logged e]
    | None => []
    end in
  proxy.modifyResponse_from (mw :: chain) resp E h =
  (fst (proxy.modifyResponse_from chain resp1 E (h ++ evs1 ++ logged)),
   evs1 ++ logged ++
   snd (proxy.modifyResponse_from chain resp1 E (h ++ evs1 ++ logged))).
Proof.
  intros Hmw logged. cbn [proxy.modifyResponse_from].
  rewrite (bind_run _ _ _ _ _ _ Hmw). cbn [fst snd].
  unfold bind at 1. subst logged.
  destruct err as [e|]; run; rewrite <- ?app_assoc, ?app_nil_r;
    now destruct (proxy.modifyResponse_from chain resp1 E _).
Qed.

(** The response hook never fails. *)
Lemma modifyResponse_from_nil (chain : list Middleware) (resp : Response)
    (h : list Event) :
  fst (fst (proxy.modifyResponse_from chain resp E h)) = None.
Proof.
  revert resp h. induction chain as [|mw chain IH]; intros resp h.
  - reflexivity.
  - destruct (ProcessResponse mw resp E h) as [[err resp1] evs1] eqn:Hmw.
    rewrite (modifyResponse_from_cons _ _ _ _ _ _ _ Hmw). cbn [fst].
    apply IH.
Qed.

Lemma modifyResponse_from_app (pre post : list Middleware) (resp : Response)
    (h : list Event) :
  let before := proxy.modifyResponse_from pre resp E h in
  let after :=
    proxy.modifyResponse_from post (snd (fst before)) E (h ++ snd before) in
  proxy.modifyResponse_from (pre ++ post) resp E h =
  (fst after, snd before ++ snd after).
Proof.
  revert resp h. induction pre as [|mw pre IH]; intros resp h; cbn zeta.
  - cbn [app proxy.modifyResponse_from ret fst snd].
    rewrite app_nil_r. now destruct (proxy.modifyResponse_from post resp E h).
  - destruct (ProcessResponse mw resp E h) as [[err resp1] evs1] eqn:Hmw.
    cbn [app].
    rewrite !(modifyResponse_from_cons _ _ _ _ _ _ _ Hmw). cbn [fst snd].
    rewrite IH. cbn [fst snd]. now rewrite <- !app_assoc.
Qed.

(** The interceptors of the source do not write to the response. *)
Lemma modifyResponse_from_source (chain : list Middleware) (resp : Response)
    (h : list Event) :
  Forall source_interceptor chain ->
  snd (fst (proxy.modifyResponse_from chain resp E h)) = resp.
Proof.
  intros Hsource. revert h.
  induction Hsource as [|mw chain Hmw _ IH]; intros h; [reflexivity|].
  destruct (ProcessResponse mw resp E h) as [[err resp1] evs1] eqn:Hrun.
  rewrite (modifyResponse_from_cons _ _ _ _ _ _ _ Hrun). cbn [fst].
  assert (resp1 = resp) as ->; [|apply IH].
  destruct Hmw as [[m ->]|[m ->]]; cbn [ProcessResponse DI.as_Middleware
    TO2.as_Middleware] in Hrun; unfold bind, ret in Hrun.
  - destruct (DI.ProcessResponse m resp E h). now inversion Hrun.
  - destruct (TO2.ProcessResponse m resp E h). now inversion Hrun.
Qed.

End Chains.

(** One relay: what the reverse proxy obtains, then the hook. *)
Lemma ServeHTTP_run (hook : Response -> M (option error * Response))
    (req : Request) (E : Env) (h : list Event) :
  httputil.ServeHTTP hook req E h =
  match RoundTrip E h req with
  | inr _ => (bad_gateway, [EvRoundTrip req])
  | inl resp =>
      let hooked := hook resp E (h ++ [EvRoundTrip req]) in
      (match fst (fst hooked) with
       | Some _ => bad_gateway
       | None => snd (fst hooked)
       end,
       EvRoundTrip req :: snd hooked)
  end.
Proof.
  unfold httputil.ServeHTTP, bind at 1.
  destruct (RoundTrip E h req) as [resp|err]; [|reflexivity].
  unfold bind.
  destruct (hook resp E (h ++ [EvRoundTrip req])) as [[[err|] resp'] evs];
    unfold ret; cbn [fst snd app]; now rewrite app_nil_r.
Qed.

(** C2: the dispatcher runs [ProcessRequest] of each interceptor in chain
    order and stops at the first that returns an error. If one does, the
    interceptors after it are not run, the error is logged, the client is
    answered with status 500 and the dispatcher makes no round trip to the
    backend; if all return nil the request, as the interceptors left it, is
    forwarded. Every run is of one of these two kinds. *)
Theorem C2_request_chain
    (p : proxy.FDOProxy) (req : Request) (E : Env) (h : list Event) :
  (forall (req' : Request) (evs : list Event),
     requests_pass E (proxy.middleware p) req h req' evs ->
     proxy.processRequest p req E h = (None, req', evs) /\
     exists reply evs',
       proxy.handler p req E h = (reply, evs ++ EvRoundTrip req' :: evs')) /\
  (forall (pre post : list Middleware) (mw : Middleware)
          (req1 req2 : Request) (evs1 evs2 : list Event) (err : error),
     proxy.middleware p = pre ++ mw :: post ->
     requests_pass E pre req h req1 evs1 ->
     ProcessRequest mw req1 E (h ++ evs1) = (Some err, req2, evs2) ->
     let failure := wrapError "middleware request processing failed" err in
     proxy.processRequest p req E h = (Some failure, req2, evs1 ++ evs2) /\
     proxy.handler p req E h =
     (http_Error "Internal Server Error" StatusInternalServerError,
      evs1 ++ evs2 ++ [request_failure_logged failure]) /\
     StatusCode (fst (proxy.handler p req E h)) = 500%Z /\
     List.filter is_relay (snd (proxy.handler p req E h)) =
     List.filter is_relay (evs1 ++ evs2)) /\
  ((exists req' evs, requests_pass E (proxy.middleware p) req h req' evs) \/
   (exists pre mw post req1 evs1 err req2 evs2,
      proxy.middleware p = pre ++ mw :: post /\
      requests_pass E pre req h req1 evs1 /\
      ProcessRequest mw req1 E (h ++ evs1) = (Some err, req2, evs2))).
Proof.
  split; [|split].
  - intros req' evs Hpass.
    pose proof (processRequest_from_pass E _ _ _ _ _ Hpass) as Hrun.
    split; [exact Hrun|].
    unfold proxy.handler. rewrite (bind_run _ _ _ _ _ _ Hrun).
    rewrite ServeHTTP_run.
    destruct (RoundTrip E (h ++ evs) req') as [resp|err]; cbn [fst snd];
      now eexists _, _.
  - intros pre post mw req1 req2 evs1 evs2 err Hchain Hpass Hfail failure.
    assert (Hrun : proxy.processRequest p req E h =
                   (Some failure, req2, evs1 ++ evs2)).
    { unfold proxy.processRequest. rewrite Hchain.
      exact (processRequest_from_fail E _ _ _ _ _ _ _ _ _ _ Hpass Hfail). }
    assert (Hhandler : proxy.handler p req E h =
              (http_Error "Internal Server Error" StatusInternalServerError,
               evs1 ++ evs2 ++ [request_failure_logged failure])).
    { unfold proxy.handler. rewrite (bind_run _ _ _ _ _ _ Hrun).
      run. cbn [fst snd app]. now rewrite <- app_assoc. }
    split; [exact Hrun|]. split; [exact Hhandler|].
    rewrite Hhandler. split; [reflexivity|]. cbn [snd].
    rewrite app_assoc, List.filter_app. cbn [List.filter is_relay
      request_failure_logged]. now rewrite app_nil_r.
  - apply processRequest_from_cases.
Qed.

Lemma C2_request_chain_witness :
  let dm := DI.as_Middleware (DI.NewDIMiddleware None true) in
  let p := proxy.NewFDOProxy "../go-fdo" [] "localhost:8080" None
             [dm; sample.refusing; dm] in
  let req := sample.request (message_path "fdo" "101" "10") "productId" in
  (proxy.middleware p = [dm] ++ sample.refusing :: [dm] /\
   requests_pass sample.quiet [dm] req [] req [EvEnter "handleDIAppStart"] /\
   ProcessRequest sample.refusing req sample.quiet
     ([] ++ [EvEnter "handleDIAppStart"]) =
   (Some (errorString "refused"), req, [])) /\
  StatusCode (fst (proxy.handler p req sample.quiet [])) = 500%Z.
Proof.
  intros dm p req.
  assert (Hchain : proxy.middleware p = [dm] ++ sample.refusing :: [dm])
    by reflexivity.
  assert (Hpass : requests_pass sample.quiet [dm] req [] req
                    [EvEnter "handleDIAppStart"]).
  { apply (pass_cons sample.quiet dm [] req req req []
             [EvEnter "handleDIAppStart"] []); [reflexivity|constructor]. }
  assert (Hfail : ProcessRequest sample.refusing req sample.quiet
                    ([] ++ [EvEnter "handleDIAppStart"]) =
                  (Some (errorString "refused"), req, [])) by reflexivity.
  split; [now repeat split|].
  destruct (C2_request_chain p req sample.quiet []) as (_ & Hstop & _).
  exact (proj1 (proj2 (proj2
           (Hstop [dm] [dm] sample.refusing req req
                  [EvEnter "handleDIAppStart"] [] (errorString "refused")
                  Hchain Hpass Hfail)))).
Defined.

(** *** Faults of the integration are swallowed *)

Section Swallowed.

Variables (E : Env) (h : list Event).

Lemma handleDIAppStart_read_error (m : DI.DIMiddleware) (req : Request)
    (id : string) (e : error) :
  In (EvGetProductItemPassport id (Some e))
     (snd (DI.handleDIAppStart m req E h)) ->
  fst (fst (DI.handleDIAppStart m req E h)) = None /\
  In (EvLog LevelWarn "Failed to get product passport"
            [("product_id", VString id); ("error", VError e)])
     (snd (DI.handleDIAppStart m req E h)).
Proof.
  destruct (DI.enableProductPassport m) eqn:Hon;
    [destruct (DI.ledgerClient m) as [client|] eqn:Hclient|].
  - rewrite (handleDIAppStart_on E h m req client Hon Hclient).
    destruct (rd_err (req_Body req)).
    { cbn. intros [Habs|[]]. discriminate Habs. }
    destruct (String.eqb _ EmptyString).
    { cbn. intros [Habs|[]]. discriminate Habs. }
    cbn [fst snd]. intros Hin. split; [reflexivity|].
    destruct Hin as [Habs|[Hcall|Hlog]]; [discriminate Habs| |].
    + injection Hcall as -> Hfailure.
      destruct (GetProductItemPassport client _ _) as [passport|err];
        [discriminate Hfailure|].
      injection Hfailure as ->. right. right. now left.
    + destruct (GetProductItemPassport client _ _), Hlog as [Habs|[]];
        discriminate Habs.
  - rewrite (handleDIAppStart_off E h m req (or_intror Hclient)).
    cbn. intros [Habs|[]]. discriminate Habs.
  - rewrite (handleDIAppStart_off E h m req (or_introl Hon)).
    cbn. intros [Habs|[]]. discriminate Habs.
Qed.

Lemma handleTO2Done2_write_error (m : TO2.TO2Middleware) (resp : Response)
    (rq : ledger.CommissioningCreateRequest) (e : error) :
  In (EvCreateCommissioningPassport rq (Some e))
     (snd (TO2.handleTO2Done2 m resp E h)) ->
  fst (TO2.handleTO2Done2 m resp E h) = None /\
  In (EvLog LevelWarn "Failed to create commissioning passport"
            [("controller_uuid", VString (ledger.ControllerUUID rq));
             ("error", VError e)])
     (snd (TO2.handleTO2Done2 m resp E h)).
Proof.
  destruct (TO2.ledgerClient m) as [client|] eqn:Hclient.
  - rewrite (handleTO2Done2_run E h m resp client Hclient).
    cbn [fst snd]. intros Hin. split; [reflexivity|].
    destruct Hin as [Habs|[Habs|[Hcall|Hlog]]];
      [discriminate Habs|discriminate Habs| |].
    + injection Hcall as <- Hfailure. rewrite Hfailure.
      right. right. right. now left.
    + destruct (CreateCommissioningPassport client _ _), Hlog as [Habs|[]];
        discriminate Habs.
  - unfold TO2.handleTO2Done2. rewrite Hclient.
    cbn. intros [Habs|[]]. discriminate Habs.
Qed.

(** An error of an interceptor is logged where it happens, and the rest
    of the chain still runs. *)
Lemma modifyResponse_from_logs (pre post : list Middleware) (mw : Middleware)
    (resp resp2 : Response) (err : error) (evs2 : list Event) :
  let before := proxy.modifyResponse_from pre resp E h in
  ProcessResponse mw (snd (fst before)) E (h ++ snd before) =
  (Some err, resp2, evs2) ->
  snd (proxy.modifyResponse_from (pre ++ mw :: post) resp E h) =
  snd before ++ evs2 ++ response_failure_logged err ::
  snd (proxy.modifyResponse_from post resp2 E
         (h ++ snd before ++ evs2 ++ [response_failure_logged err])).
Proof.
  intros before Hmw.
  rewrite modifyResponse_from_app. cbn zeta. fold before. cbn [snd].
  rewrite (modifyResponse_from_cons E _ _ _ _ _ _ _ Hmw). cbn [snd app].
  now rewrite <- !app_assoc.
Qed.

End Swallowed.

Lemma middlewareList_source (ledgerClient : option LedgerClient)
    (enableProductPassport : bool) (ownerID : string) :
  Forall source_interceptor
         (main.middlewareList ledgerClient enableProductPassport ownerID).
Proof.
  unfold main.middlewareList. apply Forall_app. split.
  - destruct enableProductPassport; [|constructor].
    constructor; [|constructor]. left. now eexists.
  - destruct (negb _); [|constructor].
    constructor; [|constructor]. right. now eexists.
Qed.

(** The dispatcher hands the response on as the interceptor leaves it,
    whether the interceptor returned an error or not. *)
Lemma modifyResponse_from_passes_on (E : Env) (h : list Event)
    (pre post : list Middleware) (mw : Middleware) (resp resp2 : Response)
    (err : option error) (evs2 : list Event) :
  let before := proxy.modifyResponse_from pre resp E h in
  ProcessResponse mw (snd (fst before)) E (h ++ snd before) =
  (err, resp2, evs2) ->
  let logged :=
    match err with
    | Some e => [response_failure_logged e]
    | None => []
    end in
  fst (proxy.modifyResponse_from (pre ++ mw :: post) resp E h) =
  fst (proxy.modifyResponse_from post resp2 E
         (h ++ snd before ++ evs2 ++ logged)).
Proof.
  intros before Hmw logged.
  rewrite modifyResponse_from_app. cbn zeta. fold before. cbn [fst].
  rewrite (modifyResponse_from_cons E _ _ _ _ _ _ _ Hmw). cbn [fst].
  now rewrite <- !app_assoc.
Qed.

(** Interceptors that do not write to the response leave the hook nothing
    to change, also when they fail. *)
Lemma modifyResponse_from_leaves (E : Env) (chain : list Middleware)
    (resp : Response) (h : list Event) :
  Forall leaves_response chain ->
  fst (proxy.modifyResponse_from chain resp E h) = (None, resp).
Proof.
  intros Hleave. revert h.
  induction Hleave as [|mw chain Hmw _ IH]; intros h; [reflexivity|].
  destruct (ProcessResponse mw resp E h) as [[err resp1] evs1] eqn:Hrun.
  rewrite (modifyResponse_from_cons E _ _ _ _ _ _ _ Hrun). cbn [fst].
  pose proof (Hmw resp E h) as Hsame. rewrite Hrun in Hsame.
  cbn [fst snd] in Hsame. subst resp1. apply IH.
Qed.

Lemma source_leaves_response (mw : Middleware) :
  source_interceptor mw -> leaves_response mw.
Proof.
  intros [[m ->]|[m ->]] resp E h;
    cbn [ProcessResponse DI.as_Middleware TO2.as_Middleware];
    unfold bind, ret.
  - now destruct (DI.ProcessResponse m resp E h).
  - now destruct (TO2.ProcessResponse m resp E h).
Qed.

Lemma refusing_leaves_response : leaves_response sample.refusing.
Proof. intros resp E h. reflexivity. Qed.

(** C1: best-effort integration faults are fully swallowed. When the read
    operation of the External Service Client returns an error inside
    [handleDIAppStart], the handler logs a warning and returns nil; when the
    write operation returns an error inside [handleTO2Done2], the handler
    logs a warning and returns nil. When [ProcessResponse] of an interceptor
    returns an error, the dispatcher logs it, runs the rest of the chain,
    and the response hook returns nil. An error changes nothing in what
    happens to the response: whatever [ProcessResponse] returns, the
    dispatcher hands to the rest of the chain the response as that
    interceptor left it, and the relay answers with the response as the
    hook leaves it. So when no interceptor of the chain writes to the
    response, whether they fail or not, the hook leaves the response it
    was given and the relay answers with the response of the backend,
    unchanged; the interceptors of the source are such interceptors. *)
Theorem C1_faults_swallowed (E : Env) (h : list Event) :
  (forall (m : DI.DIMiddleware) (req : Request) (id : string) (e : error),
     In (EvGetProductItemPassport id (Some e))
        (snd (DI.handleDIAppStart m req E h)) ->
     fst (fst (DI.handleDIAppStart m req E h)) = None /\
     In (EvLog LevelWarn "Failed to get product passport"
               [("product_id", VString id); ("error", VError e)])
        (snd (DI.handleDIAppStart m req E h))) /\
  (forall (m : TO2.TO2Middleware) (resp : Response)
          (rq : ledger.CommissioningCreateRequest) (e : error),
     In (EvCreateCommissioningPassport rq (Some e))
        (snd (TO2.handleTO2Done2 m resp E h)) ->
     fst (TO2.handleTO2Done2 m resp E h) = None /\
     In (EvLog LevelWarn "Failed to create commissioning passport"
               [("controller_uuid", VString (ledger.ControllerUUID rq));
                ("error", VError e)])
        (snd (TO2.handleTO2Done2 m resp E h))) /\
  (forall (p : proxy.FDOProxy) (resp : Response),
     fst (fst (proxy.modifyResponse p resp E h)) = None) /\
  (forall (p : proxy.FDOProxy) (pre post : list Middleware) (mw : Middleware)
          (resp resp2 : Response) (err : error) (evs2 : list Event),
     proxy.middleware p = pre ++ mw :: post ->
     let before := proxy.modifyResponse_from pre resp E h in
     ProcessResponse mw (snd (fst before)) E (h ++ snd before) =
     (Some err, resp2, evs2) ->
     snd (proxy.modifyResponse p resp E h) =
     snd before ++ evs2 ++ response_failure_logged err ::
     snd (proxy.modifyResponse_from post resp2 E
            (h ++ snd before ++ evs2 ++ [response_failure_logged err]))) /\
  (forall (p : proxy.FDOProxy) (req : Request) (resp : Response),
     RoundTrip E h req = inl resp ->
     fst (httputil.ServeHTTP (proxy.modifyResponse p) req E h) =
     snd (fst (proxy.modifyResponse p resp E (h ++ [EvRoundTrip req]))) /\
     (Forall source_interceptor (proxy.middleware p) ->
      fst (httputil.ServeHTTP (proxy.modifyResponse p) req E h) = resp)) /\
  (forall (p : proxy.FDOProxy) (pre post : list Middleware) (mw : Middleware)
          (resp resp2 : Response) (err : option error) (evs2 : list Event),
     proxy.middleware p = pre ++ mw :: post ->
     let before := proxy.modifyResponse_from pre resp E h in
     ProcessResponse mw (snd (fst before)) E (h ++ snd before) =
     (err, resp2, evs2) ->
     let logged :=
       match err with
       | Some e => [response_failure_logged e]
       | None => []
       end in
     fst (proxy.modifyResponse p resp E h) =
     fst (proxy.modifyResponse_from post resp2 E
            (h ++ snd before ++ evs2 ++ logged))) /\
  (forall (p : proxy.FDOProxy) (req : Request) (resp : Response),
     Forall leaves_response (proxy.middleware p) ->
     fst (proxy.modifyResponse p resp E h) = (None, resp) /\
     (RoundTrip E h req = inl resp ->
      fst (httputil.ServeHTTP (proxy.modifyResponse p) req E h) = resp)) /\
  (forall mw : Middleware, source_interceptor mw -> leaves_response mw).
Proof.
  split; [|split; [|split; [|split; [|split; [|split; [|split]]]]]].
  - intros m req id e. apply handleDIAppStart_read_error.
  - intros m resp rq e. apply handleTO2Done2_write_error.
  - intros p resp. apply modifyResponse_from_nil.
  - intros p pre post mw resp resp2 err evs2 Hchain before Hmw.
    unfold proxy.modifyResponse. rewrite Hchain.
    now apply modifyResponse_from_logs.
  - intros p req resp Hback.
    assert (Hreply :
      fst (httputil.ServeHTTP (proxy.modifyResponse p) req E h) =
      snd (fst (proxy.modifyResponse p resp E (h ++ [EvRoundTrip req])))).
    { rewrite ServeHTTP_run, Hback. cbn [fst].
      unfold proxy.modifyResponse. now rewrite modifyResponse_from_nil. }
    split; [exact Hreply|].
    intros Hsource. rewrite Hreply.
    now apply modifyResponse_from_source.
  - intros p pre post mw resp resp2 err evs2 Hchain before Hmw logged.
    unfold proxy.modifyResponse. rewrite Hchain.
    now apply modifyResponse_from_passes_on.
  - intros p req resp Hleave. split.
    + now apply modifyResponse_from_leaves.
    + intros Hback. rewrite ServeHTTP_run, Hback. cbn [fst].
      unfold proxy.modifyResponse.
      now rewrite (modifyResponse_from_leaves E _ resp _ Hleave).
  - exact source_leaves_response.
Qed.

Lemma C1_faults_swallowed_witness :
  let dm := DI.NewDIMiddleware (Some sample.failing_client) true in
  let tm := TO2.NewTO2Middleware (Some sample.failing_client) "owner" in
  let req := sample.request (message_path "fdo" "101" "10") "productId" in
  let rq := ledger.mkCommissioningCreateRequest
              "example-device-guid" "" "" "1700000000000000005" in
  let p := proxy.NewFDOProxy "../go-fdo" [] "localhost:8080"
             (Some sample.failing_client)
             [TO2.as_Middleware tm; sample.refusing] in
  let refused := errorString "refused" in
  let before :=
    proxy.modifyResponse_from [TO2.as_Middleware tm] sample.backend_reply
      sample.quiet [] in
  (In (EvGetProductItemPassport "example-product-id" (Some sample.down))
      (snd (DI.handleDIAppStart dm req sample.quiet [])) /\
   In (EvCreateCommissioningPassport rq (Some sample.down))
      (snd (TO2.handleTO2Done2 tm sample.backend_reply sample.quiet [])) /\
   proxy.middleware p = [TO2.as_Middleware tm] ++ sample.refusing :: [] /\
   ProcessResponse sample.refusing (snd (fst before)) sample.quiet
     ([] ++ snd before) = (Some refused, sample.backend_reply, []) /\
   Forall leaves_response (proxy.middleware p) /\
   RoundTrip sample.quiet [] req = inl sample.backend_reply) /\
  fst (fst (DI.handleDIAppStart dm req sample.quiet [])) = None /\
  fst (TO2.handleTO2Done2 tm sample.backend_reply sample.quiet []) = None /\
  In (EvLog LevelWarn "Failed to create commissioning passport"
            [("controller_uuid", VString "example-device-guid");
             ("error", VError sample.down)])
     (snd (TO2.handleTO2Done2 tm sample.backend_reply sample.quiet [])) /\
  snd (proxy.modifyResponse p sample.backend_reply sample.quiet []) =
  snd before ++ [response_failure_logged refused] /\
  fst (proxy.modifyResponse p sample.backend_reply sample.quiet []) =
  (None, sample.backend_reply) /\
  fst (httputil.ServeHTTP (proxy.modifyResponse p) req sample.quiet []) =
  sample.backend_reply.
Proof.
  intros dm tm req rq p refused before.
  assert (Hread_call :
    In (EvGetProductItemPassport "example-product-id" (Some sample.down))
       (snd (DI.handleDIAppStart dm req sample.quiet [])))
    by (right; left; reflexivity).
  assert (Hwrite_call :
    In (EvCreateCommissioningPassport rq (Some sample.down))
       (snd (TO2.handleTO2Done2 tm sample.backend_reply sample.quiet [])))
    by (right; right; left; reflexivity).
  assert (Hchain :
    proxy.middleware p = [TO2.as_Middleware tm] ++ sample.refusing :: [])
    by reflexivity.
  assert (Hrefuses :
    ProcessResponse sample.refusing (snd (fst before)) sample.quiet
      ([] ++ snd before) = (Some refused, sample.backend_reply, []))
    by reflexivity.
  assert (Hleave : Forall leaves_response (proxy.middleware p)).
  { constructor; [|constructor; [|constructor]].
    - apply source_leaves_response. right. now exists tm.
    - exact refusing_leaves_response. }
  assert (Hback : RoundTrip sample.quiet [] req = inl sample.backend_reply)
    by reflexivity.
  destruct (C1_faults_swallowed sample.quiet [])
    as (Hread & Hwrite & _ & Hlogged & _ & _ & Hsame & _).
  split; [now repeat split|].
  destruct (Hwrite tm sample.backend_reply rq sample.down Hwrite_call)
    as [Hnil Hwarn].
  destruct (Hsame p req sample.backend_reply Hleave) as [Hhook Hreply].
  split; [exact (proj1 (Hread dm req _ _ Hread_call))|].
  split; [exact Hnil|]. split; [exact Hwarn|].
  split; [|split; [exact Hhook|exact (Hreply Hback)]].
  exact (Hlogged p [TO2.as_Middleware tm] [] sample.refusing
           sample.backend_reply sample.backend_reply refused [] Hchain
           Hrefuses).
Defined.

(** ** The supervisor *)

Section Supervisor.

Variables (E : Env) (h : list Event).

(** The two ways [startBackendServer] ends. Whether a process was started
    before plays no part. *)
Lemma startBackendServer_run (p : proxy.FDOProxy) :
  let cmd := proxy.backendCommand p in
  proxy.startBackendServer p E h =
  match exec_Start E h cmd with
  | inl pid =>
      (None, proxy.set_backendCmd p (started cmd pid),
       [EvProcessStart cmd (inl pid);
        EvLog LevelInfo "Backend FDO server started"
          [("pid", VInt pid); ("port", VInt (proxy.backendPort p))]])
  | inr err =>
      (Some (wrapError "failed to start FDO server" err),
       proxy.set_backendCmd p cmd, [EvProcessStart cmd (inr err)])
  end.
Proof.
  intros cmd. unfold proxy.startBackendServer. fold cmd. run.
  now destruct (exec_Start E h cmd).
Qed.

Lemma startBackendServer_keeps (p p' : proxy.FDOProxy) (evs : list Event)
    (err : option error) :
  proxy.startBackendServer p E h = (err, p', evs) ->
  proxy.backendPort p' = proxy.backendPort p /\
  proxy.middleware p' = proxy.middleware p /\
  proxy.backendCommand p' = proxy.backendCommand p.
Proof.
  rewrite startBackendServer_run.
  destruct (exec_Start E h _); intros Hrun; inversion Hrun; now subst.
Qed.

End Supervisor.

(** One turn of the loop of [waitForBackend]. *)
Lemma waitLoop_step (p : proxy.FDOProxy) (E : Env) (ticks : nat)
    (h : list Event) :
  let r := http_Get E h (proxy.healthURL p) in
  let probe := EvHttpGet (proxy.healthURL p) r in
  let again := proxy.waitLoop p ticks E (h ++ [probe]) in
  proxy.waitLoop p (S ticks) E h =
  match r with
  | inl status =>
      if (status =? StatusOK)%Z then (None, [probe])
      else (fst again, probe :: snd again)
  | inr _ => (fst again, probe :: snd again)
  end.
Proof.
  intros r probe again. cbn [proxy.waitLoop].
  rewrite (bind_run (http_Get_ (proxy.healthURL p)) _ E h r [probe] eq_refl).
  fold again.
  destruct r as [status|err]; [|reflexivity].
  now destruct (status =? StatusOK)%Z.
Qed.

(** The health probes: nothing but [http.Get] on the health URL, and when
    the wait succeeds the last probe was answered with status 200. *)
Lemma waitLoop_probes (p : proxy.FDOProxy) (E : Env) (ticks : nat)
    (h : list Event) :
  Forall (fun e => is_relay e = false) (snd (proxy.waitLoop p ticks E h)) /\
  (fst (proxy.waitLoop p ticks E h) = None ->
   exists failed,
     snd (proxy.waitLoop p ticks E h) =
     failed ++ [EvHttpGet (proxy.healthURL p) (inl StatusOK)]).
Proof.
  revert h. induction ticks as [|ticks IH]; intros h.
  - split; [constructor|discriminate].
  - rewrite waitLoop_step.
    set (r := http_Get E h (proxy.healthURL p)).
    set (probe := EvHttpGet (proxy.healthURL p) r).
    assert (Hrest :
      Forall (fun e => is_relay e = false)
             (probe :: snd (proxy.waitLoop p ticks E (h ++ [probe]))) /\
      (fst (proxy.waitLoop p ticks E (h ++ [probe])) = None ->
       exists failed,
         probe :: snd (proxy.waitLoop p ticks E (h ++ [probe])) =
         failed ++ [EvHttpGet (proxy.healthURL p) (inl StatusOK)])).
    { destruct (IH (h ++ [probe])) as [Hall Hok]. split.
      - constructor; [reflexivity|exact Hall].
      - intros Hnone. destruct (Hok Hnone) as [failed ->].
        now exists (probe :: failed). }
    destruct r as [status|err]; [|exact Hrest].
    destruct (Z.eqb_spec status StatusOK) as [->|Hne]; [|exact Hrest].
    cbn [fst snd]. split.
    + constructor; [reflexivity|constructor].
    + intros _. now exists [].
Qed.

Section EventLists.

Lemma no_relay_inside (evs pre post : list Event) (e : Event) :
  Forall (fun x => is_relay x = false) evs ->
  evs = pre ++ e :: post -> is_relay e = true -> False.
Proof.
  intros Hall -> He.
  apply Forall_app in Hall as [_ Hall].
  apply Forall_cons in Hall as [Hne _]. congruence.
Qed.

Lemma relay_behind (fixed tail pre post : list Event) (e : Event) :
  Forall (fun x => is_relay x = false) fixed ->
  fixed ++ tail = pre ++ e :: post -> is_relay e = true ->
  exists pre', pre = fixed ++ pre'.
Proof.
  intros Hfixed. revert pre.
  induction Hfixed as [|x fixed Hx _ IH]; intros pre Heq He.
  - now exists pre.
  - destruct pre as [|y pre]; cbn [app] in Heq.
    + injection Heq as <- _. congruence.
    + injection Heq as <- Heq. destruct (IH pre Heq He) as [pre' ->].
      now exists pre'.
Qed.

End EventLists.

(** *** Readiness gating *)

Lemma waitForBackend_run (p : proxy.FDOProxy) (E : Env) (h : list Event) :
  proxy.waitForBackend p E h = proxy.waitLoop p (ticks_before_timeout E h) E h.
Proof.
  unfold proxy.waitForBackend, bind. rewrite app_nil_r.
  now destruct (proxy.waitLoop p _ E h).
Qed.

(** The runs of [Start]: either nothing of the relay happens, or the backend
    was launched, then probed until a probe was answered with status 200,
    and only then the socket is bound and requests are served. *)
Lemma Start_events (p : proxy.FDOProxy) (listenAddr : string) (E : Env)
    (h : list Event) :
  let cmd := proxy.backendCommand p in
  Forall (fun e => is_relay e = false) (snd (proxy.Start p listenAddr E h)) \/
  exists pid failed served,
    Forall (fun e => is_relay e = false) failed /\
    snd (proxy.Start p listenAddr E h) =
    [EvProcessStart cmd (inl pid);
     EvLog LevelInfo "Backend FDO server started"
       [("pid", VInt pid); ("port", VInt (proxy.backendPort p))]] ++
    failed ++
    [EvHttpGet (proxy.healthURL p) (inl StatusOK);
     EvLog LevelInfo "FDO proxy server starting"
       [("listen_addr", VString listenAddr);
        ("backend_port", VInt (proxy.backendPort p))]] ++
    served.
Proof.
  intros cmd. unfold proxy.Start.
  pose proof (startBackendServer_run E h p) as Hs. cbn zeta in Hs. fold cmd in Hs.
  destruct (exec_Start E h cmd) as [pid|err].
  - rewrite (bind_run (proxy.startBackendServer p) _ E h _ _ Hs).
    cbn beta iota. cbn [fst snd].
    set (p1 := proxy.set_backendCmd p (started cmd pid)).
    set (evs1 := [EvProcessStart cmd (inl pid); _]).
    destruct (proxy.waitForBackend p1 E (h ++ evs1)) as [res evsW] eqn:Hw.
    rewrite (bind_run (proxy.waitForBackend p1) _ E _ _ _ Hw).
    rewrite waitForBackend_run in Hw.
    destruct (waitLoop_probes p1 E (ticks_before_timeout E (h ++ evs1))
                (h ++ evs1)) as [Hprobes Hready].
    rewrite Hw in Hprobes, Hready. cbn [fst snd] in Hprobes, Hready.
    destruct res as [err|].
    + left. cbn [fst snd ret]. unfold ret. cbn [snd].
      rewrite app_nil_r. apply Forall_app. split; [|exact Hprobes].
      subst evs1. now repeat constructor.
    + destruct (Hready eq_refl) as [failed ->].
      apply Forall_app in Hprobes as [Hfailed _].
      destruct (url_Parse_localhost (proxy.backendPort p1)) as [url|err].
      * cbn [snd].
        match goal with
        | |- context [bind (slog.Info ?msg ?attrs) ?k E ?hh] =>
            rewrite (bind_run (slog.Info msg attrs) k E hh tt _ eq_refl)
        end.
        cbn [snd]. destruct (bind _ _ E _) as [res served]. cbn [snd].
        right. exists pid, failed, served. split; [exact Hfailed|].
        subst evs1. cbn [app]. rewrite <- !app_assoc. cbn [app].
        reflexivity.
      * left. unfold ret. cbn [snd]. rewrite app_nil_r.
        apply Forall_app. split; [subst evs1; now repeat constructor|].
        apply Forall_app. split; [exact Hfailed|]. now repeat constructor.
  - left. rewrite (bind_run (proxy.startBackendServer p) _ E h _ _ Hs).
    unfold ret. cbn [fst snd]. now repeat constructor.
Qed.

Lemma Start_launches_first (p : proxy.FDOProxy) (listenAddr : string)
    (E : Env) (h : list Event) :
  exists rest,
    snd (proxy.Start p listenAddr E h) =
    EvProcessStart (proxy.backendCommand p)
                   (exec_Start E h (proxy.backendCommand p)) :: rest.
Proof.
  unfold proxy.Start.
  pose proof (startBackendServer_run E h p) as Hs. cbn zeta in Hs.
  destruct (exec_Start E h (proxy.backendCommand p)) as [pid|err];
    rewrite (bind_run (proxy.startBackendServer p) _ E h _ _ Hs);
    cbn [snd app]; now eexists.
Qed.

(** C7: the dispatcher relays nothing before the readiness wait has
    succeeded. The first thing [Start] does is to launch the backend
    process; and whenever it binds the listening socket or makes a round
    trip to the backend, the launch has succeeded before and, after it and
    before anything of the relay, a health probe was answered with status
    200. *)
Theorem C7_readiness_gating
    (p : proxy.FDOProxy) (listenAddr : string) (E : Env) (h : list Event) :
  (exists rest,
     snd (proxy.Start p listenAddr E h) =
     EvProcessStart (proxy.backendCommand p)
                    (exec_Start E h (proxy.backendCommand p)) :: rest) /\
  (forall (pre post : list Event) (e : Event),
     snd (proxy.Start p listenAddr E h) = pre ++ e :: post ->
     is_relay e = true ->
     exists pid before after,
       pre = EvProcessStart (proxy.backendCommand p) (inl pid) :: before ++
             EvHttpGet (proxy.healthURL p) (inl StatusOK) :: after /\
       Forall (fun x => is_relay x = false) before).
Proof.
  split; [apply Start_launches_first|].
  intros pre post e Hsplit He.
  destruct (Start_events p listenAddr E h)
    as [Hnone|(pid & failed & served & Hfailed & Hevs)].
  - destruct (no_relay_inside _ _ _ _ Hnone Hsplit He).
  - rewrite Hevs in Hsplit. rewrite !app_assoc in Hsplit.
    apply relay_behind in Hsplit as [pre' ->]; [|
      repeat (apply Forall_app; split); try exact Hfailed;
      now repeat constructor | exact He].
    exists pid.
    eexists (_ :: failed), (_ :: pre'). split.
    + cbn [app]. rewrite <- !app_assoc. cbn [app]. reflexivity.
    + constructor; [reflexivity|exact Hfailed].
Qed.

Lemma C7_readiness_gating_witness :
  let evs := snd (proxy.Start sample.fresh_proxy "localhost:8080"
                              sample.busy []) in
  let req := sample.request "/fdo/101/msg/10" "productId" in
  (evs = firstn 8 evs ++ EvRoundTrip req :: skipn 9 evs /\
   is_relay (EvRoundTrip req) = true) /\
  exists pid before after,
    firstn 8 evs =
    EvProcessStart (proxy.backendCommand sample.fresh_proxy) (inl pid) ::
    before ++
    EvHttpGet (proxy.healthURL sample.fresh_proxy) (inl StatusOK) :: after.
Proof.
  intros evs req.
  assert (Hsplit : evs = firstn 8 evs ++ EvRoundTrip req :: skipn 9 evs)
    by (vm_compute; reflexivity).
  split; [split; [exact Hsplit|reflexivity]|].
  destruct (C7_readiness_gating sample.fresh_proxy "localhost:8080"
              sample.busy []) as [_ Hgate].
  destruct (Hgate _ _ _ Hsplit eq_refl) as (pid & before & after & Hpre & _).
  now exists pid, before, after.
Defined.

(** *** Starting the backend twice *)

(** C9, as the specification states it, fails: there is no guard against a
    second start. With an operating system that launches whatever it is
    asked to, the first call succeeds, and the second call returns nil as
    well and launches the backend command once more. *)
Lemma C9_second_start_launches_again :
  let first := proxy.startBackendServer sample.fresh_proxy sample.quiet [] in
  let second :=
    proxy.startBackendServer (snd (fst first)) sample.quiet (snd first) in
  ~ (fst (fst first) = None ->
     (exists err, fst (fst second) = Some err) /\
     List.filter is_launch (snd second) = []).
Proof.
  intros first second Hclaim.
  destruct (Hclaim eq_refl) as [_ Hnone].
  vm_compute in Hnone. discriminate Hnone.
Qed.

(** C9 (amended): calling [startBackendServer] a second time, after a first
    call has succeeded, is not refused. The second call builds the same
    command and asks the operating system to launch it again: when that
    launch succeeds the call returns nil and the stored process handle is
    replaced by the new process; it returns an error only when the launch
    itself fails. *)
Theorem C9_second_start
    (p p1 : proxy.FDOProxy) (E : Env) (h evs1 : list Event) :
  proxy.startBackendServer p E h = (None, p1, evs1) ->
  let cmd := proxy.backendCommand p in
  let h1 := h ++ evs1 in
  (exists pid, proxy.backendCmd p1 = Some (started cmd pid)) /\
  (forall pid : Z,
     exec_Start E h1 cmd = inl pid ->
     proxy.startBackendServer p1 E h1 =
     (None, proxy.set_backendCmd p1 (started cmd pid),
      [EvProcessStart cmd (inl pid);
       EvLog LevelInfo "Backend FDO server started"
         [("pid", VInt pid); ("port", VInt (proxy.backendPort p))]])) /\
  (forall err : error,
     exec_Start E h1 cmd = inr err ->
     proxy.startBackendServer p1 E h1 =
     (Some (wrapError "failed to start FDO server" err),
      proxy.set_backendCmd p1 cmd, [EvProcessStart cmd (inr err)])).
Proof.
  intros Hfirst cmd h1.
  destruct (startBackendServer_keeps E h p p1 evs1 None Hfirst)
    as (Hport & _ & Hcmd).
  pose proof (startBackendServer_run E h1 p1) as Hsecond.
  cbn zeta in Hsecond. rewrite Hcmd, Hport in Hsecond. fold cmd in Hsecond.
  split; [|split].
  - rewrite startBackendServer_run in Hfirst. fold cmd in Hfirst.
    destruct (exec_Start E h cmd) as [pid|err]; [|discriminate Hfirst].
    exists pid. now inversion Hfirst.
  - intros pid Hlaunch. now rewrite Hlaunch in Hsecond.
  - intros err Hlaunch. now rewrite Hlaunch in Hsecond.
Qed.

Lemma C9_second_start_witness :
  let first := proxy.startBackendServer sample.fresh_proxy sample.quiet [] in
  let p1 := snd (fst first) in
  let cmd := proxy.backendCommand sample.fresh_proxy in
  (first = (None, p1, snd first) /\
   exec_Start sample.quiet ([] ++ snd first) cmd = inl 4242%Z) /\
  fst (fst (proxy.startBackendServer p1 sample.quiet ([] ++ snd first))) = None.
Proof.
  intros first p1 cmd.
  assert (Hfirst : first = (None, p1, snd first)) by reflexivity.
  assert (Hlaunch : exec_Start sample.quiet ([] ++ snd first) cmd = inl 4242%Z)
    by reflexivity.
  split; [now split|].
  destruct (C9_second_start sample.fresh_proxy p1 sample.quiet [] (snd first)
              Hfirst) as (_ & Hagain & _).
  now rewrite (Hagain _ Hlaunch).
Defined.

(** *** The constructor *)

(** C10: the proxy that [NewFDOProxy] builds does not depend on its
    [fdoServerPath], [fdoArgs] and [listenAddr] arguments. The backend port
    is always 8081, the backend command is always [go run ./cmd/server] with
    the flags [-db ./fdo-backend.db -http localhost:8081 -debug], its working
    directory is always [../go-fdo], and that is the command
    [startBackendServer] launches; so the [fdoPath] the orchestrator passes
    has no effect on the spawned process. *)
Theorem C10_constructor_ignores_arguments
    (fdoServerPath fdoServerPath' listenAddr listenAddr' : string)
    (fdoArgs fdoArgs' : list string)
    (ledgerClient : option LedgerClient) (middleware : list Middleware) :
  let p :=
    proxy.NewFDOProxy fdoServerPath fdoArgs listenAddr ledgerClient middleware in
  let cmd :=
    mkCmd "go"
          ["go"; "run"; "./cmd/server"; "-db"; "./fdo-backend.db";
           "-http"; "localhost:8081"; "-debug"]
          "../go-fdo" os_Stdout os_Stderr None in
  p = proxy.NewFDOProxy fdoServerPath' fdoArgs' listenAddr' ledgerClient
                        middleware /\
  proxy.backendPort p = 8081%Z /\
  proxy.backendCommand p = cmd /\
  (forall (E : Env) (h : list Event),
   exists rest,
     snd (proxy.startBackendServer p E h) =
     EvProcessStart cmd (exec_Start E h cmd) :: rest) /\
  (forall (fdoPath fdoPath' : string) (enableProductPassport : bool)
          (ownerID : string),
     main.newProxy fdoPath listenAddr ledgerClient enableProductPassport
                   ownerID =
     main.newProxy fdoPath' listenAddr ledgerClient enableProductPassport
                   ownerID).
Proof.
  intros p cmd.
  assert (Hcmd : proxy.backendCommand p = cmd) by (vm_compute; reflexivity).
  split; [reflexivity|]. split; [reflexivity|]. split; [exact Hcmd|].
  split; [|reflexivity].
  intros E h. rewrite startBackendServer_run. cbn zeta. rewrite Hcmd.
  destruct (exec_Start E h cmd); now eexists.
Qed.

(** * More of the source *)

(** ** The request side of the interceptors *)

Section RequestSide.

Variables (E : Env) (h : list Event).

Lemma handleTO2HelloDevice_run (m : TO2.TO2Middleware) (req : Request) :
  TO2.handleTO2HelloDevice m req E h =
  (None, [EvEnter "handleTO2HelloDevice";
          EvLog LevelInfo "TO2.HelloDevice request received" []]).
Proof. reflexivity. Qed.

(** [ProcessRequest] of either interceptor does nothing or is its handler. *)
Lemma DI_ProcessRequest_cases (m : DI.DIMiddleware) (req : Request) :
  DI.ProcessRequest m req E h = (None, req, []) \/
  DI.ProcessRequest m req E h = DI.handleDIAppStart m req E h.
Proof.
  unfold DI.ProcessRequest.
  destruct (negb _); [now left|]. destruct (_ <? 5)%nat; [now left|].
  destruct (String.eqb _ "10"); [now right|now left].
Qed.

Lemma TO2_ProcessRequest_cases (m : TO2.TO2Middleware) (req : Request) :
  TO2.ProcessRequest m req E h = (None, []) \/
  TO2.ProcessRequest m req E h = TO2.handleTO2HelloDevice m req E h.
Proof.
  unfold TO2.ProcessRequest.
  destruct (negb _); [now left|]. destruct (_ <? 5)%nat; [now left|].
  destruct (String.eqb _ "60"); [now right|now left].
Qed.

End RequestSide.

(** A path that holds [/fdo/101/msg/] has at least five pieces. *)
Lemma Split_at_least_five (path : string) :
  strings.Contains path "/fdo/101/msg/" = true ->
  5 <= length (strings.Split path "/").
Proof.
  intros Hc. destruct (Contains_inv _ _ Hc) as (pre & post & ->).
  rewrite Split_byte.
  change (pre +:+ "/fdo/101/msg/" +:+ post)
    with (pre +:+ String "/" ("fdo" +:+ String "/" ("101" +:+ String "/"
            ("msg" +:+ String "/" post)))).
  rewrite SplitByte_app_sep.
  rewrite !SplitByte_free_app by reflexivity.
  destruct (SplitByte_cons pre "/") as (x & xs & ->).
  destruct (SplitByte_cons post "/") as (y & ys & ->).
  rewrite length_app. cbn [length]. lia.
Qed.

(** X1: the Stage-B interceptor classifies requests as Stage A does. On a
    path [/{namespace}/{n}/msg/{type}] the handler [handleTO2HelloDevice]
    is invoked if and only if the namespace is [fdo], [n] is [101] and the
    type is [60]; then [ProcessRequest] writes one log line, and otherwise
    it does nothing. It returns nil in both cases. *)
Theorem X1_TO2_request_classification
    (m : TO2.TO2Middleware) (req : Request) (ns n t : string)
    (E : Env) (h : list Event) :
  segment ns -> segment n -> segment t ->
  URL_Path req = message_path ns n t ->
  (entered "handleTO2HelloDevice" (snd (TO2.ProcessRequest m req E h))
   <-> ns = "fdo" /\ n = "101" /\ t = "60") /\
  (ns = "fdo" /\ n = "101" /\ t = "60" ->
   TO2.ProcessRequest m req E h =
   (None, [EvEnter "handleTO2HelloDevice";
           EvLog LevelInfo "TO2.HelloDevice request received" []])) /\
  (~ (ns = "fdo" /\ n = "101" /\ t = "60") ->
   TO2.ProcessRequest m req E h = (None, [])).
Proof.
  intros Hns Hn Ht Hpath.
  assert (Hrun : TO2.ProcessRequest m req E h =
                 if TO2.isTO2Request req && String.eqb t "60"
                 then TO2.handleTO2HelloDevice m req E h else (None, [])).
  { unfold TO2.ProcessRequest.
    destruct (TO2.isTO2Request req); [|reflexivity].
    rewrite Hpath. unfold message_path.
    rewrite (Split_message_path ns n t Hns Hn Ht). cbn.
    now destruct (String.eqb t "60"). }
  assert (Hyes : ns = "fdo" /\ n = "101" /\ t = "60" ->
                 TO2.isTO2Request req && String.eqb t "60" = true).
  { intros (-> & -> & ->). unfold TO2.isTO2Request. now rewrite Hpath. }
  assert (Hno : TO2.isTO2Request req && String.eqb t "60" = true ->
                ns = "fdo" /\ n = "101" /\ t = "60").
  { intros [Hto2 Heq]%andb_prop. apply String.eqb_eq in Heq.
    unfold TO2.isTO2Request in Hto2. apply andb_prop in Hto2 as [Hc _].
    rewrite Hpath in Hc.
    destruct (Contains_message_path ns n t Hns Hn Ht Hc). now repeat split. }
  rewrite Hrun.
  destruct (TO2.isTO2Request req && String.eqb t "60").
  - rewrite handleTO2HelloDevice_run. split; [split|split].
    + intros _. now apply Hno.
    + intros _. now left.
    + reflexivity.
    + intros Hnot. exfalso. now apply Hnot, Hno.
  - split; [split|split].
    + intros [].
    + intros Hall. now specialize (Hyes Hall).
    + intros Hall. now specialize (Hyes Hall).
    + reflexivity.
Qed.

Lemma X1_TO2_request_classification_witness :
  let m := TO2.NewTO2Middleware None "owner" in
  let req := sample.request (message_path "fdo" "101" "60") "hello" in
  (segment "fdo" /\ segment "101" /\ segment "60" /\
   URL_Path req = message_path "fdo" "101" "60") /\
  entered "handleTO2HelloDevice"
          (snd (TO2.ProcessRequest m req sample.quiet [])).
Proof.
  intros m req.
  assert (Hin : segment "fdo" /\ segment "101" /\ segment "60" /\
                URL_Path req = message_path "fdo" "101" "60")
    by (repeat split; reflexivity).
  split; [exact Hin|].
  destruct Hin as (Hns & Hn & Ht & Hpath).
  destruct (X1_TO2_request_classification m req "fdo" "101" "60"
              sample.quiet [] Hns Hn Ht Hpath) as (Hiff & _ & _).
  apply Hiff. repeat split; reflexivity.
Defined.

(** X2: the index 4 is always in range. A request that [isDIRequest] or
    [isTO2Request] accepts has a path of at least five pieces, so the guard
    [len(pathParts) < 5] never fires and [pathParts[4]] exists: what
    [ProcessRequest] does is decided by the fifth piece alone. *)
Theorem X2_message_type_index_in_range
    (dm : DI.DIMiddleware) (tm : TO2.TO2Middleware) (req : Request)
    (E : Env) (h : list Event) :
  let pathParts := strings.Split (URL_Path req) "/" in
  (DI.isDIRequest req = true -> 5 <= length pathParts) /\
  (TO2.isTO2Request req = true -> 5 <= length pathParts) /\
  DI.ProcessRequest dm req E h =
  (if DI.isDIRequest req && String.eqb (nth 4 pathParts EmptyString) "10"
   then DI.handleDIAppStart dm req E h else (None, req, [])) /\
  TO2.ProcessRequest tm req E h =
  (if TO2.isTO2Request req && String.eqb (nth 4 pathParts EmptyString) "60"
   then TO2.handleTO2HelloDevice tm req E h else (None, [])).
Proof.
  intros pathParts.
  assert (Hdi : DI.isDIRequest req = true -> 5 <= length pathParts).
  { intros [Hc _]%andb_prop. now apply Split_at_least_five. }
  assert (Hto2 : TO2.isTO2Request req = true -> 5 <= length pathParts).
  { intros [Hc _]%andb_prop. now apply Split_at_least_five. }
  split; [exact Hdi|]. split; [exact Hto2|]. split.
  - unfold DI.ProcessRequest. fold pathParts.
    destruct (DI.isDIRequest req); [|reflexivity]. cbn [negb andb].
    specialize (Hdi eq_refl).
    destruct (Nat.ltb_spec (length pathParts) 5) as [Hlt|_]; [lia|].
    now destruct (String.eqb _ "10").
  - unfold TO2.ProcessRequest. fold pathParts.
    destruct (TO2.isTO2Request req); [|reflexivity]. cbn [negb andb].
    specialize (Hto2 eq_refl).
    destruct (Nat.ltb_spec (length pathParts) 5) as [Hlt|_]; [lia|].
    now destruct (String.eqb _ "60").
Qed.

Lemma X2_message_type_index_in_range_witness :
  let req := sample.request "/proxy/fdo/101/msg/extra/10" "" in
  DI.isDIRequest req = true /\
  5 <= length (strings.Split (URL_Path req) "/").
Proof.
  intros req.
  assert (Hdi : DI.isDIRequest req = true) by reflexivity.
  split; [exact Hdi|].
  exact (proj1 (X2_message_type_index_in_range
                  (DI.NewDIMiddleware None true)
                  (TO2.NewTO2Middleware None "") req sample.quiet []) Hdi).
Defined.

(** ** What the interceptors of the source can and cannot do *)

Section SourceInterceptors.

Variables (E : Env) (h : list Event).

Lemma same_request_refl (req : Request) : same_request req req.
Proof. now repeat split. Qed.

Lemma same_request_trans (req1 req2 req3 : Request) :
  same_request req1 req2 -> same_request req2 req3 -> same_request req1 req3.
Proof.
  intros (H1 & H2 & H3 & H4 & H5) (K1 & K2 & K3 & K4 & K5).
  repeat split; congruence.
Qed.

(** The ways [handleDIAppStart] ends, each with what it leaves behind. *)
Lemma handleDIAppStart_outcome (m : DI.DIMiddleware) (req : Request) :
  let run := DI.handleDIAppStart m req E h in
  Forall (fun e => interceptor_event e = true) (snd run) /\
  (fst (fst run) = None /\ same_request req (snd (fst run)) \/
   exists e,
     rd_err (req_Body req) = Some e /\
     DI.enableProductPassport m = true /\
     DI.ledgerClient m <> None /\
     run = (Some (wrapError "failed to read request body" e),
            set_req_Body req (mkReader EmptyString (Some e)),
            [EvEnter "handleDIAppStart"])).
Proof.
  cbn zeta.
  destruct (DI.enableProductPassport m) eqn:Hon;
    [destruct (DI.ledgerClient m) as [client|] eqn:Hclient|].
  - rewrite (handleDIAppStart_on E h m req client Hon Hclient).
    destruct (rd_err (req_Body req)) as [e|] eqn:Herr.
    + split; [now repeat constructor|]. right. exists e. now repeat split.
    + assert (Hsame : same_request req
                (set_req_Body req
                   (io.NopCloser_NewReader (rd_data (req_Body req))))).
      { repeat split. unfold io.ReadAll. cbn. now rewrite Herr. }
      destruct (String.eqb _ EmptyString).
      * split; [now repeat constructor|]. left. now split.
      * split; [|left; now split].
        destruct (GetProductItemPassport client _ _); now repeat constructor.
  - rewrite (handleDIAppStart_off E h m req (or_intror Hclient)).
    split; [now repeat constructor|]. left. split; [reflexivity|].
    apply same_request_refl.
  - rewrite (handleDIAppStart_off E h m req (or_introl Hon)).
    split; [now repeat constructor|]. left. split; [reflexivity|].
    apply same_request_refl.
Qed.

Lemma handleTO2Done2_outcome (m : TO2.TO2Middleware) (resp : Response) :
  fst (TO2.handleTO2Done2 m resp E h) = None /\
  Forall (fun e => interceptor_event e = true)
         (snd (TO2.handleTO2Done2 m resp E h)).
Proof.
  destruct (TO2.ledgerClient m) as [client|] eqn:Hclient.
  - rewrite (handleTO2Done2_run E h m resp client Hclient).
    split; [reflexivity|].
    destruct (CreateCommissioningPassport client _ _); now repeat constructor.
  - unfold TO2.handleTO2Done2. rewrite Hclient.
    split; [reflexivity|now repeat constructor].
Qed.

(** [ProcessRequest] of an interceptor of the source. *)
Lemma source_ProcessRequest (mw : Middleware) (req : Request) :
  source_interceptor mw ->
  let run := ProcessRequest mw req E h in
  Forall (fun e => interceptor_event e = true) (snd run) /\
  (fst (fst run) = None /\ same_request req (snd (fst run)) \/
   exists e,
     rd_err (req_Body req) = Some e /\
     run = (Some (wrapError "failed to read request body" e),
            set_req_Body req (mkReader EmptyString (Some e)),
            [EvEnter "handleDIAppStart"])).
Proof.
  intros [[m ->]|[m ->]]; cbn zeta;
    cbn [ProcessRequest DI.as_Middleware TO2.as_Middleware].
  - destruct (DI_ProcessRequest_cases E h m req) as [-> | ->].
    + split; [constructor|]. left. split; [reflexivity|].
      apply same_request_refl.
    + destruct (handleDIAppStart_outcome m req)
        as [Hevs [Hok|(e & Herr & _ & _ & Hrun)]].
      * now split; [|left].
      * split; [exact Hevs|]. right. now exists e.
  - unfold bind, ret.
    destruct (TO2_ProcessRequest_cases E h m req) as [-> | ->].
    + split; [constructor|]. left. split; [reflexivity|].
      apply same_request_refl.
    + rewrite handleTO2HelloDevice_run. cbn [fst snd app].
      split; [now repeat constructor|]. left. split; [reflexivity|].
      apply same_request_refl.
Qed.

(** [ProcessResponse] of an interceptor of the source never fails and
    leaves the response alone. *)
Lemma source_ProcessResponse (mw : Middleware) (resp : Response) :
  source_interceptor mw ->
  fst (ProcessResponse mw resp E h) = (None, resp) /\
  Forall (fun e => interceptor_event e = true)
         (snd (ProcessResponse mw resp E h)).
Proof.
  intros [[m ->]|[m ->]];
    cbn [ProcessResponse DI.as_Middleware TO2.as_Middleware];
    unfold bind, ret.
  - rewrite DI_ProcessResponse_by_header.
    destruct (String.eqb _ "11").
    + rewrite handleDISetCredentials_run. cbn [fst snd app].
      split; [reflexivity|now repeat constructor].
    + cbn [fst snd app]. split; [reflexivity|constructor].
  - rewrite TO2_ProcessResponse_by_header.
    destruct (String.eqb _ "71").
    + destruct (handleTO2Done2_outcome m resp) as [Hnil Hevs].
      destruct (TO2.handleTO2Done2 m resp E h) as [err evs].
      cbn [fst snd] in *. subst err. rewrite app_nil_r. now split.
    + cbn [fst snd app]. split; [reflexivity|constructor].
Qed.

End SourceInterceptors.

(** X3: the only error an interceptor of the source returns is a failed
    read of the request body. [ProcessRequest] of Stage A returns an error
    only when the feature is enabled, a client is configured and reading the
    body fails, and [handleDIAppStart] returns it whenever it runs in that
    situation; the error wraps the read error, the body is left used up and
    nothing but the entry into the handler has happened, so no call of the
    External Service Client is made. [ProcessResponse] of Stage A and both
    methods of Stage B return nil on every input. *)
Theorem X3_only_error_is_body_read
    (dm : DI.DIMiddleware) (tm : TO2.TO2Middleware)
    (req : Request) (resp : Response) (E : Env) (h : list Event) :
  (forall (err : error) (req' : Request) (evs : list Event),
     DI.ProcessRequest dm req E h = (Some err, req', evs) ->
     exists e,
       rd_err (req_Body req) = Some e /\
       err = wrapError "failed to read request body" e /\
       DI.enableProductPassport dm = true /\
       DI.ledgerClient dm <> None /\
       req' = set_req_Body req (mkReader EmptyString (Some e)) /\
       evs = [EvEnter "handleDIAppStart"]) /\
  (forall e : error,
     DI.enableProductPassport dm = true ->
     DI.ledgerClient dm <> None ->
     rd_err (req_Body req) = Some e ->
     DI.handleDIAppStart dm req E h =
     (Some (wrapError "failed to read request body" e),
      set_req_Body req (mkReader EmptyString (Some e)),
      [EvEnter "handleDIAppStart"])) /\
  fst (DI.ProcessResponse dm resp E h) = None /\
  fst (TO2.ProcessRequest tm req E h) = None /\
  fst (TO2.ProcessResponse tm resp E h) = None.
Proof.
  split; [|split; [|split; [|split]]].
  - intros err req' evs Hrun.
    destruct (DI_ProcessRequest_cases E h dm req) as [Hnone|Hhandler];
      [congruence|].
    rewrite Hhandler in Hrun.
    destruct (handleDIAppStart_outcome E h dm req)
      as [_ [[Hnil _]|(e & Herr & Hon & Hclient & Hfail)]].
    + rewrite Hrun in Hnil. discriminate Hnil.
    + rewrite Hrun in Hfail. inversion Hfail; subst. now exists e.
  - intros e Hon Hclient Herr.
    destruct (DI.ledgerClient dm) as [client|] eqn:Hc; [|now destruct Hclient].
    rewrite (handleDIAppStart_on E h dm req client Hon Hc). now rewrite Herr.
  - rewrite DI_ProcessResponse_by_header. now destruct (String.eqb _ "11").
  - now destruct (TO2_ProcessRequest_cases E h tm req) as [-> | ->].
  - rewrite TO2_ProcessResponse_by_header.
    destruct (String.eqb _ "71"); [|reflexivity].
    apply handleTO2Done2_outcome.
Qed.

Lemma X3_only_error_is_body_read_witness :
  let dm := DI.NewDIMiddleware (Some sample.working_client) true in
  let req :=
    mkRequest "POST" (message_path "fdo" "101" "10") EmptyString ∅
              (broken_body "prod" sample.down) in
  (DI.enableProductPassport dm = true /\
   DI.ledgerClient dm <> None /\
   rd_err (req_Body req) = Some sample.down) /\
  fst (fst (DI.handleDIAppStart dm req sample.quiet [])) =
  Some (wrapError "failed to read request body" sample.down).
Proof.
  intros dm req.
  assert (Hon : DI.enableProductPassport dm = true) by reflexivity.
  assert (Hclient : DI.ledgerClient dm <> None) by discriminate.
  assert (Herr : rd_err (req_Body req) = Some sample.down) by reflexivity.
  split; [now repeat split|].
  destruct (X3_only_error_is_body_read dm (TO2.NewTO2Middleware None "") req
              (sample.response "11") sample.quiet []) as (_ & Hfail & _).
  now rewrite (Hfail _ Hon Hclient Herr).
Defined.

(** ** The relay with the interceptors of the source *)

Section SourceChains.

Variable E : Env.

Lemma same_request_rd_err (req req' : Request) :
  same_request req req' ->
  rd_err (req_Body req') = rd_err (req_Body req).
Proof.
  intros (_ & _ & _ & _ & Hbody). unfold io.ReadAll in Hbody.
  cbn [fst] in Hbody. congruence.
Qed.

(** The request side of a chain of interceptors of the source: it passes
    the request on as it was, or the body could not be read. *)
Lemma source_processRequest_from (chain : list Middleware) (req : Request)
    (h : list Event) :
  Forall source_interceptor chain ->
  let run := proxy.processRequest_from chain req E h in
  Forall (fun e => interceptor_event e = true) (snd run) /\
  (fst (fst run) = None /\ same_request req (snd (fst run)) \/
   exists e,
     rd_err (req_Body req) = Some e /\
     fst (fst run) =
     Some (wrapError "middleware request processing failed"
             (wrapError "failed to read request body" e))).
Proof.
  intros Hsource. revert req h.
  induction Hsource as [|mw chain Hmw _ IH]; intros req h; cbn zeta.
  - split; [constructor|]. left. split; [reflexivity|].
    apply same_request_refl.
  - destruct (source_ProcessRequest E h mw req Hmw)
      as [Hevs [[Hnil Hsame]|(e & Herr & Hrun)]].
    + destruct (ProcessRequest mw req E h) as [[err req1] evs1] eqn:Hrun.
      cbn [fst snd] in Hevs, Hnil, Hsame. subst err.
      rewrite (processRequest_from_cons E _ _ _ _ _ _ _ Hrun).
      destruct (IH req1 (h ++ evs1)) as [Hevs' [[Hnil' Hsame']|(e & Herr & Hf)]].
      * split; [now apply Forall_app|]. left. split; [exact Hnil'|].
        exact (same_request_trans _ _ _ Hsame Hsame').
      * split; [now apply Forall_app|]. right. exists e.
        split; [|exact Hf].
        now rewrite <- (same_request_rd_err _ _ Hsame).
    + rewrite (processRequest_from_cons E _ _ _ _ _ _ _ Hrun).
      split; [now repeat constructor|]. right. now exists e.
Qed.

(** The response side: nothing fails, nothing is logged by the dispatcher,
    the response is as it was. *)
Lemma source_modifyResponse_from (chain : list Middleware) (resp : Response)
    (h : list Event) :
  Forall source_interceptor chain ->
  fst (proxy.modifyResponse_from chain resp E h) = (None, resp) /\
  Forall (fun e => interceptor_event e = true)
         (snd (proxy.modifyResponse_from chain resp E h)).
Proof.
  intros Hsource. revert h.
  induction Hsource as [|mw chain Hmw _ IH]; intros h.
  - split; [reflexivity|constructor].
  - destruct (source_ProcessResponse E h mw resp Hmw) as [Hres Hevs].
    destruct (ProcessResponse mw resp E h) as [[err resp1] evs1] eqn:Hrun.
    cbn [fst snd] in Hres, Hevs. injection Hres as -> ->.
    rewrite (modifyResponse_from_cons E _ _ _ _ _ _ _ Hrun).
    cbn [app fst snd]. rewrite app_nil_r.
    destruct (IH (h ++ evs1)) as [Hres' Hevs'].
    split; [exact Hres'|now apply Forall_app].
Qed.

End SourceChains.

(** X4: with the interceptors of the source, what the dispatcher puts
    around the reverse proxy is transparent. The request hook only enters
    handlers, reads the clock, calls the External Service Client and logs
    below the error level; it either returns nil and leaves a request with
    the method, path, query and headers of the one received and a body that
    reads the same, and the handler then answers with whatever the call
    [ServeHTTP] of the reverse proxy on that request answers; or the body
    of the request could not be read, and the handler logs the wrapped
    error and answers 500 without calling the reverse proxy. A request
    whose body reads without error always reaches the reverse proxy. The
    response hook returns nil, leaves the response it is given as it is,
    and logs no error. What the reverse proxy itself does with the request
    and the response is not part of the statement. *)
Theorem X4_hooks_are_transparent
    (p : proxy.FDOProxy) (req : Request) (resp : Response)
    (E : Env) (h : list Event) :
  Forall source_interceptor (proxy.middleware p) ->
  let before := proxy.processRequest p req E h in
  let relay :=
    httputil.ServeHTTP (proxy.modifyResponse p) (snd (fst before)) E
      (h ++ snd before) in
  Forall (fun e => interceptor_event e = true) (snd before) /\
  (fst (fst before) = None /\
   same_request req (snd (fst before)) /\
   proxy.handler p req E h = (fst relay, snd before ++ snd relay) \/
   exists e : error,
     rd_err (req_Body req) = Some e /\
     fst (fst before) =
     Some (wrapError "middleware request processing failed"
             (wrapError "failed to read request body" e)) /\
     proxy.handler p req E h =
     (http_Error "Internal Server Error" StatusInternalServerError,
      snd before ++
      [request_failure_logged
         (wrapError "middleware request processing failed"
            (wrapError "failed to read request body" e))])) /\
  (rd_err (req_Body req) = None -> fst (fst before) = None) /\
  fst (proxy.modifyResponse p resp E h) = (None, resp) /\
  Forall (fun e => interceptor_event e = true)
         (snd (proxy.modifyResponse p resp E h)).
Proof.
  intros Hsource before relay.
  destruct (source_processRequest_from E _ req h Hsource)
    as [Hevs [[Hnil Hsame]|(e & Herr & Hfail)]];
    fold (proxy.processRequest p req E h) in Hevs; fold before in Hevs.
  - fold (proxy.processRequest p req E h) in Hnil, Hsame.
    fold before in Hnil, Hsame.
    split; [exact Hevs|]. split; [|split].
    + left. split; [exact Hnil|]. split; [exact Hsame|].
      unfold proxy.handler.
      rewrite (bind_run (proxy.processRequest p req) _ E h
                 (None, snd (fst before)) (snd before)).
      * fold relay. now destruct relay.
      * fold before. destruct before as [[err req'] evs].
        cbn [fst snd] in *. now subst err.
    + intros _. exact Hnil.
    + apply (source_modifyResponse_from E _ resp h Hsource).
  - fold (proxy.processRequest p req E h) in Hfail. fold before in Hfail.
    split; [exact Hevs|]. split; [|split].
    + right. exists e. split; [exact Herr|]. split; [exact Hfail|].
      unfold proxy.handler.
      rewrite (bind_run (proxy.processRequest p req) _ E h
                 (fst (fst before), snd (fst before)) (snd before)).
      * rewrite Hfail. run. cbn [fst snd app]. reflexivity.
      * fold before. now destruct before as [[err req'] evs].
    + intros Hbody. congruence.
    + apply (source_modifyResponse_from E _ resp h Hsource).
Qed.

Lemma X4_hooks_are_transparent_witness :
  let req := sample.request "/fdo/101/msg/10" "productId" in
  let p := sample.fresh_proxy in
  Forall source_interceptor (proxy.middleware p) /\
  fst (proxy.modifyResponse p sample.backend_reply sample.quiet []) =
  (None, sample.backend_reply) /\
  same_request req (snd (fst (proxy.processRequest p req sample.quiet []))).
Proof.
  intros req p.
  assert (Hsource : Forall source_interceptor (proxy.middleware p))
    by apply middlewareList_source.
  split; [exact Hsource|].
  destruct (X4_hooks_are_transparent p req sample.backend_reply sample.quiet
              [] Hsource) as (_ & Hrequest & _ & Hresponse & _).
  split; [exact Hresponse|].
  destruct Hrequest as [(_ & Hsame & _)|(e & Herr & _)];
    [exact Hsame|discriminate Herr].
Defined.

(** ** The calls of the External Service Client *)

Section ClientCalls.

Variables (E : Env) (h : list Event).

(** The calls [handleDIAppStart] makes, read off its four conditions. *)
Lemma handleDIAppStart_calls (m : DI.DIMiddleware) (req : Request) :
  List.filter is_ledger_call (snd (DI.handleDIAppStart m req E h)) =
  match DI.enableProductPassport m, DI.ledgerClient m, rd_err (req_Body req) with
  | true, Some client, None =>
      if strings.Contains (rd_data (req_Body req)) "productId"
      then [EvGetProductItemPassport "example-product-id"
              (failure_of (GetProductItemPassport client
                             (h ++ [EvEnter "handleDIAppStart"])
                             "example-product-id"))]
      else []
  | _, _, _ => []
  end.
Proof.
  destruct (DI.enableProductPassport m) eqn:Hon;
    [destruct (DI.ledgerClient m) as [client|] eqn:Hclient|].
  - rewrite (handleDIAppStart_on E h m req client Hon Hclient).
    destruct (rd_err (req_Body req)); [reflexivity|].
    unfold DI.extractProductID.
    destruct (strings.Contains _ "productId"); [|reflexivity].
    cbn [String.eqb Ascii.eqb Bool.eqb].
    change ("example-product-id" =? "")%string with false. cbn iota.
    cbn [snd List.filter is_ledger_call].
    now destruct (GetProductItemPassport client _ _).
  - now rewrite (handleDIAppStart_off E h m req (or_intror Hclient)).
  - now rewrite (handleDIAppStart_off E h m req (or_introl Hon)).
Qed.

End ClientCalls.

(** X5: the calls of the External Service Client. One run of a method of
    an interceptor makes at most one call. Stage A only ever reads, only on
    the request side, and exactly when the handler runs with the feature
    enabled, a client, a body that can be read and that holds the bytes
    [productId]; the identifier it asks for is always [example-product-id],
    whatever the body says. Stage B only ever writes, only on the response
    side, and the controller identifier it sends is always
    [example-device-guid]. *)
Theorem X5_client_calls
    (dm : DI.DIMiddleware) (tm : TO2.TO2Middleware)
    (req : Request) (resp : Response) (E : Env) (h : list Event) :
  let reads :=
    List.filter is_ledger_call (snd (DI.handleDIAppStart dm req E h)) in
  ((exists failure,
      reads = [EvGetProductItemPassport "example-product-id" failure])
   <-> DI.enableProductPassport dm = true /\
       DI.ledgerClient dm <> None /\
       rd_err (req_Body req) = None /\
       strings.Contains (rd_data (req_Body req)) "productId" = true) /\
  (reads = [] \/
   exists failure,
     reads = [EvGetProductItemPassport "example-product-id" failure]) /\
  (List.filter is_ledger_call (snd (DI.ProcessRequest dm req E h)) = [] \/
   List.filter is_ledger_call (snd (DI.ProcessRequest dm req E h)) = reads) /\
  List.filter is_ledger_call (snd (DI.ProcessResponse dm resp E h)) = [] /\
  List.filter is_ledger_call (snd (TO2.ProcessRequest tm req E h)) = [] /\
  (List.filter is_ledger_call (snd (TO2.ProcessResponse tm resp E h)) = [] \/
   exists timestamp failure,
     List.filter is_ledger_call (snd (TO2.ProcessResponse tm resp E h)) =
     [EvCreateCommissioningPassport
        (ledger.mkCommissioningCreateRequest
           "example-device-guid" EmptyString EmptyString timestamp)
        failure]).
Proof.
  intros reads.
  pose proof (handleDIAppStart_calls E h dm req) as Hreads. fold reads in Hreads.
  split; [|split; [|split; [|split; [|split]]]].
  - rewrite Hreads.
    destruct (DI.enableProductPassport dm), (DI.ledgerClient dm) as [client|],
      (rd_err (req_Body req)),
      (strings.Contains (rd_data (req_Body req)) "productId");
      split;
      try (intros [failure Habs]; discriminate Habs);
      try (intros (H1 & H2 & H3 & H4); congruence).
    + intros _. now repeat split.
    + intros _. now eexists.
  - rewrite Hreads.
    destruct (DI.enableProductPassport dm), (DI.ledgerClient dm) as [client|],
      (rd_err (req_Body req)),
      (strings.Contains (rd_data (req_Body req)) "productId");
      try (now left). right. now eexists.
  - destruct (DI_ProcessRequest_cases E h dm req) as [-> | ->];
      [now left|now right].
  - rewrite DI_ProcessResponse_by_header. now destruct (String.eqb _ "11").
  - now destruct (TO2_ProcessRequest_cases E h tm req) as [-> | ->].
  - rewrite TO2_ProcessResponse_by_header.
    destruct (String.eqb _ "71"); [|now left].
    destruct (TO2.ledgerClient tm) as [client|] eqn:Hclient.
    + right. rewrite (handleTO2Done2_run E h tm resp client Hclient).
      cbn [snd List.filter is_ledger_call].
      set (failure := CreateCommissioningPassport client _ _).
      exists (fmt.Sprintf_d
                (UnixNano (clock E (h ++ [EvEnter "handleTO2Done2"])))),
             failure.
      now destruct failure.
    + left. unfold TO2.handleTO2Done2. now rewrite Hclient.
Qed.

(** X6: the owner identifier is not used. Two Stage-B interceptors with the
    same client and different [ownerID] behave alike on every request and
    every response; the commissioning request does not carry it. *)
Theorem X6_ownerID_is_unused
    (ledgerClient : option LedgerClient) (ownerID ownerID' : string)
    (req : Request) (resp : Response) (E : Env) (h : list Event) :
  TO2.ProcessRequest (TO2.NewTO2Middleware ledgerClient ownerID) req E h =
  TO2.ProcessRequest (TO2.NewTO2Middleware ledgerClient ownerID') req E h /\
  TO2.ProcessResponse (TO2.NewTO2Middleware ledgerClient ownerID) resp E h =
  TO2.ProcessResponse (TO2.NewTO2Middleware ledgerClient ownerID') resp E h.
Proof.
  split.
  - now destruct (TO2_ProcessRequest_cases E h
                    (TO2.NewTO2Middleware ledgerClient ownerID) req).
  - rewrite !TO2_ProcessResponse_by_header.
    destruct (String.eqb _ "71"); [|reflexivity].
    destruct ledgerClient as [client|].
    + rewrite (handleTO2Done2_run E h
                 (TO2.NewTO2Middleware (Some client) ownerID) resp client
                 eq_refl).
      now rewrite (handleTO2Done2_run E h
                     (TO2.NewTO2Middleware (Some client) ownerID') resp client
                     eq_refl).
    + reflexivity.
Qed.

(** ** How [Start] ends *)

Lemma ListenAndServe_run (addr : string) (handler : Request -> M Response)
    (E : Env) (h : list Event) :
  ListenAndServe addr handler E h =
  match net_Listen E h addr with
  | Some err => (err, [])
  | None =>
      (ErrServerClosed,
       EvListen addr ::
       snd (serve handler (accepted E (h ++ [EvListen addr])) E
                  (h ++ [EvListen addr])))
  end.
Proof.
  unfold ListenAndServe.
  rewrite (bind_run (fun E0 h0 => (net_Listen E0 h0 addr, [])) _ E h
             (net_Listen E h addr) [] eq_refl).
  rewrite app_nil_r. cbn [app].
  destruct (net_Listen E h addr) as [err|].
  - reflexivity.
  - rewrite (bind_run (emit (EvListen addr)) _ E h tt [EvListen addr] eq_refl).
    cbn [fst snd].
    rewrite (bind_run (fun E0 h0 => (accepted E0 h0, [])) _ E
               (h ++ [EvListen addr]) (accepted E (h ++ [EvListen addr])) []
               eq_refl).
    rewrite app_nil_r. cbn [fst snd app].
    unfold bind, ret.
    destruct (serve handler _ E (h ++ [EvListen addr])) as [[] evs].
    cbn [fst snd app]. now rewrite !app_nil_r.
Qed.

(** [Start] once the backend process is launched. *)
Lemma Start_after_launch
    (p : proxy.FDOProxy) (listenAddr : string) (E : Env) (h : list Event) :
  let cmd := proxy.backendCommand p in
  forall pid : Z,
     exec_Start E h cmd = inl pid ->
     let p1 := proxy.set_backendCmd p (started cmd pid) in
     let evs1 :=
       [EvProcessStart cmd (inl pid);
        EvLog LevelInfo "Backend FDO server started"
          [("pid", VInt pid); ("port", VInt (proxy.backendPort p))]] in
     let wait := proxy.waitForBackend p1 E (h ++ evs1) in
     fst (fst (proxy.Start p listenAddr E h)) <> None /\
     (forall failure : error,
        fst wait = Some failure ->
        proxy.Start p listenAddr E h =
        (Some (wrapError "backend server not ready" failure), p1,
         evs1 ++ snd wait)) /\
     (fst wait = None ->
      (0 <= proxy.backendPort p)%Z ->
      exists err,
        fst (proxy.Start p listenAddr E h) =
        (Some err,
         proxy.set_server
           (proxy.set_backendURL p1
              ("http://localhost:" +:+ fmt.Sprintf_d (proxy.backendPort p)))
           listenAddr) /\
        (err = ErrServerClosed \/
         exists h', net_Listen E h' listenAddr = Some err)).
Proof.
  intros cmd.
  pose proof (startBackendServer_run E h p) as Hs. cbn zeta in Hs. fold cmd in Hs.
  intros pid Hpid p1 evs1 wait. rewrite Hpid in Hs.
  unfold proxy.Start.
  rewrite (bind_run (proxy.startBackendServer p) _ E h _ _ Hs).
  cbn beta iota. cbn [fst snd]. fold p1. fold evs1.
  rewrite (bind_run (proxy.waitForBackend p1) _ E (h ++ evs1)
             (fst wait) (snd wait)) by apply surjective_pairing.
  destruct (fst wait) as [failure|].
  - unfold ret. cbn [fst snd]. rewrite app_nil_r.
    split; [discriminate|]. split; [|discriminate].
    intros failure' [= <-]. reflexivity.
  - change (proxy.backendPort p1) with (proxy.backendPort p).
    unfold url_Parse_localhost.
    destruct (Z.leb_spec 0 (proxy.backendPort p)) as [Hport|Hport].
    + match goal with
      | |- context [bind (slog.Info ?msg ?attrs) ?k E ?hh] =>
          rewrite (bind_run (slog.Info msg attrs) k E hh tt _ eq_refl)
      end.
      cbn [fst snd].
      match goal with
      | |- context [bind (ListenAndServe ?a ?hd) ?k E ?hh] =>
          rewrite (bind_run (ListenAndServe a hd) k E hh
                     (fst (ListenAndServe a hd E hh))
                     (snd (ListenAndServe a hd E hh)))
            by apply surjective_pairing;
          pose proof (ListenAndServe_run a hd E hh) as Hserve
      end.
      unfold ret at 1 2. cbn [fst snd].
      split; [discriminate|]. split; [discriminate|].
      intros _ _. eexists. split; [reflexivity|].
      rewrite Hserve.
      match goal with
      | |- context [net_Listen E ?hh listenAddr] =>
          destruct (net_Listen E hh listenAddr) as [err|] eqn:Hbind
      end.
      * right. eexists. exact Hbind.
      * now left.
    + unfold ret. cbn [fst snd].
      split; [discriminate|]. split; [discriminate|]. intros _ Habs. lia.
Qed.



(** ** [Stop] *)

Section Stopping.

Variable S : shutdown.StopEnv.

Lemma killed_stopServer (p : proxy.FDOProxy) :
  shutdown.killed (shutdown.stopServer S p) = [].
Proof.
  unfold shutdown.stopServer.
  destruct (proxy.server p) as [addr|]; [|reflexivity].
  now destruct (shutdown.server_Shutdown S [] addr).
Qed.

(** The processes [Stop] kills: the one whose handle the proxy holds. *)
Lemma killed_Stop (p : proxy.FDOProxy) :
  shutdown.killed (snd (shutdown.Stop S p)) =
  match proxy.backendCmd p with
  | Some cmd =>
      match cmd_Process cmd with
      | Some pid => [pid]
      | None => []
      end
  | None => []
  end.
Proof.
  unfold shutdown.Stop, shutdown.killed. cbn [snd].
  rewrite flat_map_app. fold (shutdown.killed (shutdown.stopServer S p)).
  rewrite killed_stopServer. cbn [app]. unfold shutdown.stopBackend.
  destruct (proxy.backendCmd p) as [cmd|]; [|reflexivity].
  destruct (cmd_Process cmd) as [pid|]; [|reflexivity].
  now destruct (shutdown.process_Kill S _ pid).
Qed.

End Stopping.

(** X9: [Stop] is best effort. It always returns nil. It closes the server
    at most once and kills at most one process, the server first; whether
    closing the server fails or not plays no part in the kill; and each
    failure is written to the log at error level. *)
Theorem X9_Stop_is_best_effort (S : shutdown.StopEnv) (p : proxy.FDOProxy) :
  let evs := snd (shutdown.Stop S p) in
  fst (shutdown.Stop S p) = None /\
  (forall S' : shutdown.StopEnv,
     shutdown.killed (snd (shutdown.Stop S' p)) = shutdown.killed evs) /\
  length (shutdown.killed evs) <= 1 /\
  (forall (pre post : list shutdown.StopEvent) (addr : string)
          (failure : option error),
     evs = pre ++ shutdown.SvShutdown addr failure :: post ->
     pre = [] /\ proxy.server p = Some addr) /\
  (forall (addr : string) (e : error),
     In (shutdown.SvShutdown addr (Some e)) evs ->
     In (shutdown.SvEvent
           (EvLog LevelError "Failed to shutdown proxy server"
                  [("error", VError e)])) evs) /\
  (forall (pid : Z) (e : error),
     In (shutdown.SvKill pid (Some e)) evs ->
     In (shutdown.SvEvent
           (EvLog LevelError "Failed to kill backend process"
                  [("error", VError e)])) evs).
Proof.
  cbn zeta. split; [reflexivity|]. split; [|split; [|split; [|split]]].
  - intros S'. now rewrite !killed_Stop.
  - rewrite killed_Stop.
    destruct (proxy.backendCmd p) as [cmd|]; [|cbn; lia].
    destruct (cmd_Process cmd); cbn; lia.
  - unfold shutdown.Stop, shutdown.stopServer, shutdown.stopBackend. cbn [snd].
    intros pre post addr failure Hevs.
    destruct (proxy.server p) as [addr0|];
      [destruct (shutdown.server_Shutdown S [] addr0)|];
      destruct (proxy.backendCmd p) as [cmd|];
      try destruct (cmd_Process cmd) as [pid|];
      try destruct (shutdown.process_Kill S _ pid);
      cbn [app] in Hevs;
      repeat (destruct pre as [|? pre]; cbn [app] in Hevs;
              [try discriminate Hevs; injection Hevs as -> _ _; now split
              |try discriminate Hevs; injection Hevs as _ Hevs]);
      destruct pre; discriminate Hevs.
  - unfold shutdown.Stop, shutdown.stopServer, shutdown.stopBackend. cbn [snd].
    intros addr e Hin.
    destruct (proxy.server p) as [addr0|];
      [destruct (shutdown.server_Shutdown S [] addr0)|];
      destruct (proxy.backendCmd p) as [cmd|];
      try destruct (cmd_Process cmd) as [pid|];
      try destruct (shutdown.process_Kill S _ pid);
      cbn in Hin |- *; intuition (try discriminate);
      match goal with H : shutdown.SvShutdown _ _ = _ |- _ =>
        injection H as _ ->; tauto end.
  - unfold shutdown.Stop, shutdown.stopServer, shutdown.stopBackend. cbn [snd].
    intros pid0 e Hin.
    destruct (proxy.server p) as [addr0|];
      [destruct (shutdown.server_Shutdown S [] addr0)|];
      destruct (proxy.backendCmd p) as [cmd|];
      try destruct (cmd_Process cmd) as [pid|];
      try destruct (shutdown.process_Kill S _ pid);
      cbn in Hin |- *; intuition (try discriminate);
      match goal with H : shutdown.SvKill _ _ = _ |- _ =>
        injection H as _ ->; tauto end.
Qed.

Lemma X9_Stop_is_best_effort_witness :
  let S := shutdown.mkStopEnv (fun _ _ => Some sample.down) (fun _ _ => None) in
  let p := snd (fst (proxy.Start sample.fresh_proxy "localhost:8080"
                                 sample.quiet [])) in
  In (shutdown.SvShutdown "localhost:8080" (Some sample.down))
     (snd (shutdown.Stop S p)) /\
  In (shutdown.SvEvent
        (EvLog LevelError "Failed to shutdown proxy server"
               [("error", VError sample.down)]))
     (snd (shutdown.Stop S p)).
Proof.
  intros S p.
  assert (Hin : In (shutdown.SvShutdown "localhost:8080" (Some sample.down))
                   (snd (shutdown.Stop S p)))
    by (vm_compute; now left).
  split; [exact Hin|].
  destruct (X9_Stop_is_best_effort S p) as (_ & _ & _ & _ & Hlogged & _).
  exact (Hlogged _ _ Hin).
Defined.

(** The handle of the launched process stays in the proxy however [Start]
    ends. *)
Lemma Start_keeps_handle (p : proxy.FDOProxy) (listenAddr : string) (E : Env)
    (h : list Event) (pid : Z) :
  exec_Start E h (proxy.backendCommand p) = inl pid ->
  proxy.backendCmd (snd (fst (proxy.Start p listenAddr E h))) =
  Some (started (proxy.backendCommand p) pid).
Proof.
  intros Hpid.
  pose proof (startBackendServer_run E h p) as Hs. cbn zeta in Hs.
  rewrite Hpid in Hs. unfold proxy.Start.
  rewrite (bind_run (proxy.startBackendServer p) _ E h _ _ Hs).
  cbn beta iota. cbn [fst snd].
  match goal with
  | |- context [bind (proxy.waitForBackend ?q) ?k E ?hh] =>
      rewrite (bind_run (proxy.waitForBackend q) k E hh
                 (fst (proxy.waitForBackend q E hh))
                 (snd (proxy.waitForBackend q E hh)))
        by apply surjective_pairing;
      destruct (fst (proxy.waitForBackend q E hh))
  end; [reflexivity|].
  destruct (url_Parse_localhost _); [|reflexivity].
  match goal with
  | |- context [bind (slog.Info ?msg ?attrs) ?k E ?hh] =>
      rewrite (bind_run (slog.Info msg attrs) k E hh tt _ eq_refl)
  end.
  cbn [fst snd].
  match goal with
  | |- context [bind (ListenAndServe ?a ?hd) ?k E ?hh] =>
      rewrite (bind_run (ListenAndServe a hd) k E hh
                 (fst (ListenAndServe a hd E hh))
                 (snd (ListenAndServe a hd E hh)))
        by apply surjective_pairing
  end.
  reflexivity.
Qed.

(** X10: what [Stop] kills after a start. On a proxy fresh from
    [NewFDOProxy] it does nothing. After [startBackendServer] it kills the
    process that was launched, and nothing when the launch failed. After two
    successful calls of [startBackendServer] it kills the second process
    only: the handle of the first was overwritten, so the first process is
    never killed. And however [Start] ends after a successful launch,
    [Stop] kills that process. *)
Theorem X10_Stop_after_start
    (S : shutdown.StopEnv) (p : proxy.FDOProxy) (listenAddr : string)
    (E : Env) (h : list Event) :
  let cmd := proxy.backendCommand p in
  (forall (fdoServerPath la : string) (fdoArgs : list string)
          (ledgerClient : option LedgerClient) (middleware : list Middleware),
     shutdown.Stop S (proxy.NewFDOProxy fdoServerPath fdoArgs la ledgerClient
                                        middleware) = (None, [])) /\
  shutdown.killed
    (snd (shutdown.Stop S (snd (fst (proxy.startBackendServer p E h))))) =
  match exec_Start E h cmd with
  | inl pid => [pid]
  | inr _ => []
  end /\
  (forall (p1 p2 : proxy.FDOProxy) (evs1 evs2 : list Event),
     proxy.startBackendServer p E h = (None, p1, evs1) ->
     proxy.startBackendServer p1 E (h ++ evs1) = (None, p2, evs2) ->
     exists pid1 pid2,
       exec_Start E h cmd = inl pid1 /\
       exec_Start E (h ++ evs1) cmd = inl pid2 /\
       shutdown.killed (snd (shutdown.Stop S p2)) = [pid2]) /\
  (forall pid : Z,
     exec_Start E h cmd = inl pid ->
     shutdown.killed
       (snd (shutdown.Stop S (snd (fst (proxy.Start p listenAddr E h))))) =
     [pid]).
Proof.
  intros cmd. split; [reflexivity|]. split; [|split].
  - rewrite killed_Stop, startBackendServer_run. cbn zeta. fold cmd.
    now destruct (exec_Start E h cmd).
  - intros p1 p2 evs1 evs2 Hfirst Hsecond.
    destruct (startBackendServer_keeps E h p p1 evs1 None Hfirst)
      as (_ & _ & Hcmd).
    rewrite startBackendServer_run in Hfirst, Hsecond. cbn zeta in *.
    rewrite Hcmd in Hsecond. fold cmd in Hfirst, Hsecond.
    destruct (exec_Start E h cmd) as [pid1|]; [|discriminate Hfirst].
    destruct (exec_Start E (h ++ evs1) cmd) as [pid2|]; [|discriminate Hsecond].
    exists pid1, pid2. split; [reflexivity|]. split; [reflexivity|].
    rewrite killed_Stop. now inversion Hsecond.
  - intros pid Hpid.
    now rewrite killed_Stop, (Start_keeps_handle p listenAddr E h pid Hpid).
Qed.

Lemma X10_Stop_after_start_witness :
  let S := shutdown.mkStopEnv (fun _ _ => None) (fun _ _ => None) in
  let counting : Env :=
    mkEnv (clock sample.quiet)
          (fun h _ => inl (Z.of_nat (length h)))
          (ticks_before_timeout sample.quiet) (http_Get sample.quiet)
          (net_Listen sample.quiet) (accepted sample.quiet)
          (RoundTrip sample.quiet) in
  let first := proxy.startBackendServer sample.fresh_proxy counting [] in
  let second :=
    proxy.startBackendServer (snd (fst first)) counting ([] ++ snd first) in
  (first = (None, snd (fst first), snd first) /\
   second = (None, snd (fst second), snd second)) /\
  shutdown.killed (snd (shutdown.Stop S (snd (fst second)))) = [2%Z].
Proof.
  intros S counting first second.
  assert (Hfirst : first = (None, snd (fst first), snd first)) by reflexivity.
  assert (Hsecond : second = (None, snd (fst second), snd second))
    by reflexivity.
  split; [now split|].
  destruct (X10_Stop_after_start S sample.fresh_proxy "localhost:8080"
              counting []) as (_ & _ & Htwice & _).
  destruct (Htwice _ _ _ _ Hfirst Hsecond) as (pid1 & pid2 & _ & Hpid2 & Hkill).
  rewrite Hkill. f_equal.
  assert (Hc : exec_Start counting ([] ++ snd first)
                 (proxy.backendCommand sample.fresh_proxy) = inl 2%Z)
    by reflexivity.
  congruence.
Defined.

(** ** The events of a chain *)

Section EventsOfChains.

Variables (E : Env) (P : Event -> Prop).

(** What holds of the events of every interceptor holds of the events of
    the request side of the chain. *)
Lemma processRequest_from_events (chain : list Middleware) (req : Request)
    (h : list Event) :
  Forall (fun mw => forall req h, Forall P (snd (ProcessRequest mw req E h)))
         chain ->
  Forall P (snd (proxy.processRequest_from chain req E h)).
Proof.
  intros Hchain. revert req h.
  induction Hchain as [|mw chain Hmw _ IH]; intros req h; [constructor|].
  specialize (Hmw req h).
  destruct (ProcessRequest mw req E h) as [[err req1] evs1] eqn:Hrun.
  rewrite (processRequest_from_cons E _ _ _ _ _ _ _ Hrun).
  destruct err; [exact Hmw|]. apply Forall_app. split; [exact Hmw|apply IH].
Qed.

(** The same on the response side, where the dispatcher adds its log
    lines. *)
Lemma modifyResponse_from_events (chain : list Middleware) (resp : Response)
    (h : list Event) :
  (forall err, P (response_failure_logged err)) ->
  Forall (fun mw => forall resp h, Forall P (snd (ProcessResponse mw resp E h)))
         chain ->
  Forall P (snd (proxy.modifyResponse_from chain resp E h)).
Proof.
  intros Hlog Hchain. revert resp h.
  induction Hchain as [|mw chain Hmw _ IH]; intros resp h; [constructor|].
  specialize (Hmw resp h).
  destruct (ProcessResponse mw resp E h) as [[err resp1] evs1] eqn:Hrun.
  rewrite (modifyResponse_from_cons E _ _ _ _ _ _ _ Hrun). cbn [snd].
  apply Forall_app. split; [exact Hmw|]. apply Forall_app. split; [|apply IH].
  destruct err as [err|]; [|constructor].
  constructor; [exact (Hlog err)|constructor].
Qed.

(** And of the handler, which adds the call of the reverse proxy and its
    own log line. *)
Lemma handler_events (p : proxy.FDOProxy) (req : Request) (h : list Event) :
  (forall err, P (response_failure_logged err)) ->
  (forall err, P (request_failure_logged err)) ->
  (forall req', P (EvRoundTrip req')) ->
  Forall (fun mw =>
            (forall req h, Forall P (snd (ProcessRequest mw req E h))) /\
            (forall resp h, Forall P (snd (ProcessResponse mw resp E h))))
         (proxy.middleware p) ->
  Forall P (snd (proxy.handler p req E h)).
Proof.
  intros Hresp Hreq Htrip Hchain.
  assert (Hrequests :
    Forall (fun mw => forall req h, Forall P (snd (ProcessRequest mw req E h)))
           (proxy.middleware p))
    by (eapply Forall_impl; [exact Hchain|]; now intros mw [H1 _]).
  assert (Hresponses :
    Forall (fun mw => forall resp h,
              Forall P (snd (ProcessResponse mw resp E h)))
           (proxy.middleware p))
    by (eapply Forall_impl; [exact Hchain|]; now intros mw [_ H2]).
  pose proof (processRequest_from_events _ req h Hrequests) as Hevs.
  fold (proxy.processRequest p req E h) in Hevs.
  unfold proxy.handler.
  destruct (proxy.processRequest p req E h) as [[err req'] evs] eqn:Hrun.
  rewrite (bind_run _ _ _ _ _ _ Hrun). cbn [snd] in Hevs |- *.
  apply Forall_app. split; [exact Hevs|].
  destruct err as [err|].
  - run. cbn [snd app]. constructor; [exact (Hreq err)|constructor].
  - rewrite ServeHTTP_run.
    destruct (RoundTrip E (h ++ evs) req') as [resp|err'];
      cbn [snd]; constructor; try apply Htrip; [|constructor].
    now apply modifyResponse_from_events.
Qed.

End EventsOfChains.

Lemma Forall_filter_nil (f : Event -> bool) (evs : list Event) :
  Forall (fun e => f e = false) evs -> List.filter f evs = [].
Proof.
  induction 1 as [|e evs He _ IH]; [reflexivity|].
  cbn [List.filter]. now rewrite He.
Qed.

(** ** The orchestrator *)

Section Orchestrator.

Variables (NewClient : orchestrator.NewClient_t) (f : orchestrator.Flags).
Variable E : Env.

(** The client [main] ends up with. *)
Lemma initLedgerClient_run (h : list Event) :
  fst (orchestrator.initLedgerClient NewClient f E h) =
  if negb (String.eqb (orchestrator.productPassportBaseURL f) EmptyString) ||
     negb (String.eqb (orchestrator.commissioningCreateURL f) EmptyString)
  then
    match NewClient (orchestrator.productPassportBaseURL f)
                    (orchestrator.commissioningCreateURL f)
                    (orchestrator.caCertPath f)
                    (orchestrator.clientCertPath f)
                    (orchestrator.clientKeyPath f) with
    | inl c => Some c
    | inr _ => None
    end
  else None.
Proof.
  unfold orchestrator.initLedgerClient.
  destruct (_ || _); [|reflexivity].
  now destruct (NewClient _ _ _ _ _).
Qed.

(** The chain [main] builds is the list of [main.middlewareList]: Stage A
    first, then Stage B. *)
Lemma createMiddleware_run (ledgerClient : option LedgerClient)
    (h : list Event) :
  fst (orchestrator.createMiddleware ledgerClient f E h) =
  main.middlewareList ledgerClient (orchestrator.enableProductPassport f)
                      (orchestrator.ownerID f).
Proof.
  unfold orchestrator.createMiddleware, main.middlewareList.
  destruct (orchestrator.enableProductPassport f);
    destruct (negb (String.eqb (orchestrator.ownerID f) EmptyString));
    reflexivity.
Qed.

Lemma wire_run (h : list Event) :
  fst (orchestrator.wire NewClient f E h) =
  main.newProxy (orchestrator.fdoPath f) (orchestrator.listenAddr f)
                (fst (orchestrator.initLedgerClient NewClient f E h))
                (orchestrator.enableProductPassport f)
                (orchestrator.ownerID f).
Proof.
  unfold orchestrator.wire.
  rewrite (bind_run (orchestrator.initLedgerClient NewClient f) _ E h
             (fst (orchestrator.initLedgerClient NewClient f E h))
             (snd (orchestrator.initLedgerClient NewClient f E h)))
    by apply surjective_pairing.
  cbn [fst].
  match goal with
  | |- context [bind (orchestrator.createMiddleware ?lc f) ?k E ?hh] =>
      rewrite (bind_run (orchestrator.createMiddleware lc f) k E hh
                 (fst (orchestrator.createMiddleware lc f E hh))
                 (snd (orchestrator.createMiddleware lc f E hh)))
        by apply surjective_pairing;
      rewrite (createMiddleware_run lc hh)
  end.
  reflexivity.
Qed.

End Orchestrator.

(** An interceptor without a client makes no call. *)
Lemma no_client_no_call (ledgerClient : option LedgerClient)
    (enableProductPassport : bool) (ownerID : string) :
  ledgerClient = None ->
  Forall (fun mw =>
            (forall req E h,
               Forall (fun e => is_ledger_call e = false)
                      (snd (ProcessRequest mw req E h))) /\
            (forall resp E h,
               Forall (fun e => is_ledger_call e = false)
                      (snd (ProcessResponse mw resp E h))))
         (main.middlewareList ledgerClient enableProductPassport ownerID).
Proof.
  intros ->. unfold main.middlewareList. apply Forall_app. split.
  - destruct enableProductPassport; [|constructor].
    constructor; [|constructor]. split.
    + intros req E h. cbn [ProcessRequest DI.as_Middleware].
      destruct (DI_ProcessRequest_cases E h (DI.NewDIMiddleware None true) req)
        as [-> | ->]; [constructor|].
      rewrite handleDIAppStart_off by now right.
      now repeat constructor.
    + intros resp E h. cbn [ProcessResponse DI.as_Middleware].
      unfold bind, ret. rewrite DI_ProcessResponse_by_header.
      destruct (String.eqb _ "11"); now repeat constructor.
  - destruct (negb _); [|constructor].
    constructor; [|constructor]. split.
    + intros req E h. cbn [ProcessRequest TO2.as_Middleware].
      unfold bind, ret.
      destruct (TO2_ProcessRequest_cases E h
                  (TO2.NewTO2Middleware None ownerID) req) as [-> | ->];
        now repeat constructor.
    + intros resp E h. cbn [ProcessResponse TO2.as_Middleware].
      unfold bind, ret. rewrite TO2_ProcessResponse_by_header.
      destruct (String.eqb _ "71"); now repeat constructor.
Qed.

(** X12: without a client there is no call. When neither passport URL is
    set, or [ledger.NewClient] fails, the proxy [main] wires holds no
    client, whatever [-enable-product-passport] and [-owner-id] say; its
    chain is Stage A (if enabled) followed by Stage B (if an owner is
    given); and no run of its handler, on any request and with any backend,
    calls the External Service Client. With a URL set and a client created,
    that client is the one both interceptors hold. *)
Theorem X12_no_client_no_call
    (NewClient : orchestrator.NewClient_t) (f : orchestrator.Flags)
    (E : Env) (h : list Event) :
  let p := fst (orchestrator.wire NewClient f E h) in
  let made :=
    NewClient (orchestrator.productPassportBaseURL f)
              (orchestrator.commissioningCreateURL f)
              (orchestrator.caCertPath f) (orchestrator.clientCertPath f)
              (orchestrator.clientKeyPath f) in
  proxy.middleware p =
  main.middlewareList (proxy.ledgerClient p)
                      (orchestrator.enableProductPassport f)
                      (orchestrator.ownerID f) /\
  (orchestrator.productPassportBaseURL f = EmptyString /\
   orchestrator.commissioningCreateURL f = EmptyString \/
   (exists err, made = inr err) ->
   proxy.ledgerClient p = None /\
   forall (req : Request) (E' : Env) (h' : list Event),
     List.filter is_ledger_call (snd (proxy.handler p req E' h')) = []) /\
  (forall c : LedgerClient,
     orchestrator.productPassportBaseURL f <> EmptyString \/
     orchestrator.commissioningCreateURL f <> EmptyString ->
     made = inl c ->
     proxy.ledgerClient p = Some c).
Proof.
  intros p made. subst p. rewrite wire_run.
  set (lc := fst (orchestrator.initLedgerClient NewClient f E h)).
  pose proof (initLedgerClient_run NewClient f E h) as Hlc.
  fold lc in Hlc. fold made in Hlc.
  cbn [proxy.middleware proxy.ledgerClient main.newProxy proxy.NewFDOProxy].
  split; [reflexivity|]. split.
  - intros Hnone.
    assert (Hnil : lc = None).
    { rewrite Hlc. destruct Hnone as [[-> ->]|[err ->]]; [reflexivity|].
      now destruct (_ || _). }
    split; [exact Hnil|].
    intros req E' h'. apply Forall_filter_nil.
    apply handler_events; try reflexivity.
    cbn [proxy.middleware].
    eapply Forall_impl; [exact (no_client_no_call lc _ _ Hnil)|].
    intros mw [Hreq Hresp]. split; [intros; apply Hreq|intros; apply Hresp].
  - intros c Hset Hmade. rewrite Hlc, Hmade.
    destruct Hset as [Hbase|Hurl].
    + apply String.eqb_neq in Hbase. now rewrite Hbase.
    + apply String.eqb_neq in Hurl. rewrite Hurl.
      now rewrite orb_true_r.
Qed.

Lemma X12_no_client_no_call_witness :
  let f :=
    orchestrator.mkFlags "localhost:8080" "../go-fdo" "" "" "" "" "" true
                         "owner" in
  let NewClient : orchestrator.NewClient_t :=
    fun _ _ _ _ _ => inl sample.working_client in
  let p := fst (orchestrator.wire NewClient f sample.quiet []) in
  let req := sample.request "/fdo/101/msg/10" "productId" in
  (orchestrator.productPassportBaseURL f = EmptyString /\
   orchestrator.commissioningCreateURL f = EmptyString) /\
  List.filter is_ledger_call (snd (proxy.handler p req sample.quiet [])) = [].
Proof.
  intros f NewClient p req.
  assert (Hurls : orchestrator.productPassportBaseURL f = EmptyString /\
                  orchestrator.commissioningCreateURL f = EmptyString)
    by now split.
  split; [exact Hurls|].
  destruct (X12_no_client_no_call NewClient f sample.quiet [])
    as (_ & Hnone & _).
  exact (proj2 (Hnone (or_introl Hurls)) req sample.quiet []).
Defined.

(** X13: without a feature nothing is intercepted. When
    [-enable-product-passport] is off and no [-owner-id] is given, as with
    the default flags, the chain [main] builds is empty whatever client it
    has; the request hook returns nil at once and leaves the request as it
    is, the response hook returns nil at once and leaves the response as it
    is, and neither enters a handler, logs or calls the External Service
    Client. *)
Theorem X13_no_feature_no_interception
    (NewClient : orchestrator.NewClient_t) (f : orchestrator.Flags)
    (E : Env) (h : list Event) :
  orchestrator.enableProductPassport f = false ->
  orchestrator.ownerID f = EmptyString ->
  let p := fst (orchestrator.wire NewClient f E h) in
  proxy.middleware p = [] /\
  (forall (req : Request) (E' : Env) (h' : list Event),
     proxy.processRequest p req E' h' = (None, req, [])) /\
  (forall (resp : Response) (E' : Env) (h' : list Event),
     proxy.modifyResponse p resp E' h' = (None, resp, [])).
Proof.
  intros Hoff Howner p.
  assert (Hchain : proxy.middleware p = []).
  { subst p. rewrite wire_run.
    cbn [proxy.middleware main.newProxy proxy.NewFDOProxy].
    unfold main.middlewareList. now rewrite Hoff, Howner. }
  split; [exact Hchain|]. split.
  - intros req E' h'. unfold proxy.processRequest.
    now rewrite Hchain.
  - intros resp E' h'. unfold proxy.modifyResponse.
    now rewrite Hchain.
Qed.

Lemma X13_no_feature_no_interception_witness :
  let NewClient : orchestrator.NewClient_t :=
    fun _ _ _ _ _ => inl sample.working_client in
  let p := fst (orchestrator.wire NewClient orchestrator.defaults
                                  sample.quiet []) in
  let req := sample.request "/fdo/101/msg/10" "productId" in
  (orchestrator.enableProductPassport orchestrator.defaults = false /\
   orchestrator.ownerID orchestrator.defaults = EmptyString) /\
  proxy.processRequest p req sample.quiet [] = (None, req, []) /\
  proxy.modifyResponse p (sample.response "71") sample.quiet [] =
  (None, sample.response "71", []).
Proof.
  intros NewClient p req.
  split; [now split|].
  destruct (X13_no_feature_no_interception NewClient orchestrator.defaults
              sample.quiet [] eq_refl eq_refl) as (_ & Hrequest & Hresponse).
  split; [apply Hrequest|apply Hresponse].
Defined.

Lemma Start_never_nil (p : proxy.FDOProxy) (listenAddr : string) (E : Env)
    (h : list Event) :
  exists err, fst (fst (proxy.Start p listenAddr E h)) = Some err.
Proof.
  assert (Hsome : fst (fst (proxy.Start p listenAddr E h)) <> None).
  { destruct (exec_Start E h (proxy.backendCommand p)) as [pid|e] eqn:Hexec.
    - now apply (Start_after_launch p listenAddr E h pid Hexec).
    - pose proof (startBackendServer_run E h p) as Hs. cbn zeta in Hs.
      rewrite Hexec in Hs. unfold proxy.Start.
      now rewrite (bind_run (proxy.startBackendServer p) _ E h _ _ Hs). }
  destruct (fst (fst (proxy.Start p listenAddr E h))) as [err|];
    [now exists err|now destruct Hsome].
Qed.

(** X14: [main] never exits with status 0. [Start] only returns with an
    error, also when the listener is closed in an orderly way, so whenever
    [Start] returns, the last thing [main] does is to log
    "Proxy server error" at error level and to exit with status 1. *)
Theorem X14_main_exits_with_status_1
    (NewClient : orchestrator.NewClient_t) (f : orchestrator.Flags)
    (E : Env) (h : list Event) :
  fst (orchestrator.run NewClient f E h) = 1%Z /\
  exists (evs : list Event) (err : error),
    snd (orchestrator.run NewClient f E h) =
    evs ++ [EvLog LevelError "Proxy server error" [("error", VError err)]].
Proof.
  unfold orchestrator.run.
  rewrite (bind_run (orchestrator.wire NewClient f) _ E h
             (fst (orchestrator.wire NewClient f E h))
             (snd (orchestrator.wire NewClient f E h)))
    by apply surjective_pairing.
  set (p := fst (orchestrator.wire NewClient f E h)).
  set (evs0 := snd (orchestrator.wire NewClient f E h)).
  cbn [fst snd].
  match goal with
  | |- context [bind (slog.Info ?msg ?attrs) ?k E ?hh] =>
      rewrite (bind_run (slog.Info msg attrs) k E hh tt _ eq_refl)
  end.
  cbn [fst snd].
  match goal with
  | |- context [bind (proxy.Start p ?a) ?k E ?hh] =>
      destruct (Start_never_nil p a E hh) as [err Herr];
      rewrite (bind_run (proxy.Start p a) k E hh
                 (fst (proxy.Start p a E hh)) (snd (proxy.Start p a E hh)))
        by apply surjective_pairing;
      destruct (fst (proxy.Start p a E hh)) as [res p'];
      cbn [fst] in Herr; subst res
  end.
  run. cbn [fst snd]. split; [reflexivity|].
  eexists _, err. rewrite !app_assoc, app_nil_r. reflexivity.
Qed.

(** ** The timestamp *)

Lemma wrap64_range (z : Z) : (- 2 ^ 63 <= wrap64 z < 2 ^ 63)%Z.
Proof.
  unfold wrap64.
  pose proof (Z.mod_pos_bound (z + 2 ^ 63) (2 ^ 64) ltac:(lia)). lia.
Qed.

(** X15: the timestamp of a commissioning request loses nothing. With a
    client, the [Timestamp] that [handleTO2Done2] sends is the decimal
    rendering of a number in the range of [int64]; two runs send the same
    [Timestamp] only if their clock readings give the same number of
    nanoseconds, and for readings whose nanosecond count fits [int64] only
    if the readings are the same instant. *)
Theorem X15_timestamp_is_faithful
    (m : TO2.TO2Middleware) (resp resp' : Response) (client : LedgerClient)
    (E E' : Env) (h h' : list Event) :
  TO2.ledgerClient m = Some client ->
  let now := clock E (h ++ [EvEnter "handleTO2Done2"]) in
  let now' := clock E' (h' ++ [EvEnter "handleTO2Done2"]) in
  let sent (evs : list Event) : list string :=
    flat_map (fun e => match e with
                       | EvCreateCommissioningPassport rq _ =>
                           [ledger.Timestamp rq]
                       | _ => []
                       end) evs in
  sent (snd (TO2.handleTO2Done2 m resp E h)) =
  [fmt.Sprintf_d (UnixNano now)] /\
  (- 2 ^ 63 <= UnixNano now < 2 ^ 63)%Z /\
  (sent (snd (TO2.handleTO2Done2 m resp E h)) =
   sent (snd (TO2.handleTO2Done2 m resp' E' h')) ->
   UnixNano now = UnixNano now') /\
  (sent (snd (TO2.handleTO2Done2 m resp E h)) =
   sent (snd (TO2.handleTO2Done2 m resp' E' h')) ->
   (- 2 ^ 63 <= unixSec now * 1000000000 + nsec now < 2 ^ 63)%Z ->
   (- 2 ^ 63 <= unixSec now' * 1000000000 + nsec now' < 2 ^ 63)%Z ->
   (unixSec now * 1000000000 + nsec now =
    unixSec now' * 1000000000 + nsec now')%Z).
Proof.
  intros Hclient now now' sent.
  assert (Hsent : forall resp0 E0 h0,
            sent (snd (TO2.handleTO2Done2 m resp0 E0 h0)) =
            [fmt.Sprintf_d
               (UnixNano (clock E0 (h0 ++ [EvEnter "handleTO2Done2"])))]).
  { intros resp0 E0 h0.
    rewrite (handleTO2Done2_run E0 h0 m resp0 client Hclient).
    cbn [snd]. subst sent. cbn [flat_map app ledger.Timestamp].
    now destruct (CreateCommissioningPassport client _ _). }
  rewrite !Hsent. fold now. fold now'.
  split; [reflexivity|]. split; [apply wrap64_range|]. split.
  - intros [= Hsame]. now apply Sprintf_d_inj.
  - intros [= Hsame] Hrange Hrange'. apply Sprintf_d_inj in Hsame.
    now rewrite (UnixNano_exact now Hrange),
      (UnixNano_exact now' Hrange') in Hsame.
Qed.

Lemma X15_timestamp_is_faithful_witness :
  let m := TO2.NewTO2Middleware (Some sample.working_client) "owner" in
  TO2.ledgerClient m = Some sample.working_client /\
  (- 2 ^ 63 <= UnixNano (clock sample.quiet ([] ++ [EvEnter "handleTO2Done2"]))
   < 2 ^ 63)%Z.
Proof.
  intros m. split; [reflexivity|].
  exact (proj1 (proj2 (X15_timestamp_is_faithful m (sample.response "71")
                         (sample.response "71") sample.working_client
                         sample.quiet sample.quiet [] [] eq_refl))).
Defined.

Lemma X5_client_calls_witness :
  let dm := DI.NewDIMiddleware (Some sample.working_client) true in
  let req := sample.request "/fdo/101/msg/10" "productId" in
  (DI.enableProductPassport dm = true /\
   DI.ledgerClient dm <> None /\
   rd_err (req_Body req) = None /\
   strings.Contains (rd_data (req_Body req)) "productId" = true) /\
  exists failure,
    List.filter is_ledger_call
      (snd (DI.handleDIAppStart dm req sample.quiet [])) =
    [EvGetProductItemPassport "example-product-id" failure].
Proof.
  intros dm req.
  assert (Hwhen : DI.enableProductPassport dm = true /\
                  DI.ledgerClient dm <> None /\
                  rd_err (req_Body req) = None /\
                  strings.Contains (rd_data (req_Body req)) "productId" = true)
    by (repeat split; discriminate).
  split; [exact Hwhen|].
  destruct (X5_client_calls dm (TO2.NewTO2Middleware None "") req
              (sample.response "11") sample.quiet []) as (Hiff & _).
  exact (proj2 Hiff Hwhen).
Defined.
